(** * Hate-Speech-Detection-Model: relay endpoint and score aggregation

    A shallow embedding of
    - the Express handler of [POST /analyze] in [backend/server.js]
      (validation, credential check, relay, error mapping), module
      [Server];
    - the earlier revision of the same handler (the second source file),
      module [Part000];
    - the browser script that follows the handler in [backend/server.js],
      of which [processApiResponse], [displayVerdict], the severity class
      of [createCategoryCard] and [analyzeToxicity] are modelled, module
      [Frontend]; the same module models the analyze button
      ([handleAnalyzeClick] and the functions it calls), [initializeApp]
      and the network handlers over an explicit page state, and [Server]
      the health route.

    JavaScript values are modelled as the code sees them: strings are
    sequences of UTF-16 code units, numbers are IEEE-754 binary64 values
    ([spec_float] at precision 53), objects are ordered lists of fields,
    exceptions are an explicit completion type, and an outbound HTTP call
    is an event appended to a trace. *)

From Stdlib Require Import ZArith NArith List Bool String Ascii Lia.
From Stdlib Require Import SpecFloat Permutation DecimalString.
Import ListNotations.

Local Open Scope Z_scope.

(** ** JavaScript strings *)

Module JsString.

(** A string is the list of its UTF-16 code units; [s.length] is the
    length of that list. *)
Definition code_unit := N.
Definition t := list code_unit.

(** String literals of the source, all of them ASCII. *)
Definition lit (s : string) : t := map N_of_ascii (list_ascii_of_string s).

Fixpoint eqb (a b : t) : bool :=
  match a, b with
  | [], [] => true
  | x :: a', y :: b' => N.eqb x y && eqb a' b'
  | _, _ => false
  end.

Definition length (s : t) : Z := Z.of_nat (List.length s).

(** [WhiteSpace] and [LineTerminator] code points of ECMAScript, the
    characters [String.prototype.trim] strips. *)
Definition is_white_space (c : code_unit) : bool :=
  (N.leb 9 c && N.leb c 13)          (* TAB LF VT FF CR *)
  || N.eqb c 32 || N.eqb c 160       (* SP, NBSP *)
  || N.eqb c 5760                    (* U+1680 *)
  || (N.leb 8192 c && N.leb c 8202)  (* U+2000 .. U+200A *)
  || N.eqb c 8232 || N.eqb c 8233    (* LS, PS *)
  || N.eqb c 8239 || N.eqb c 8287    (* U+202F, U+205F *)
  || N.eqb c 12288 || N.eqb c 65279  (* U+3000, BOM *).

Fixpoint trim_start (s : t) : t :=
  match s with
  | c :: s' => if is_white_space c then trim_start s' else s
  | [] => []
  end.

Definition trim (s : t) : t := rev (trim_start (rev (trim_start s))).

Fixpoint starts_with (p s : t) : bool :=
  match p, s with
  | [], _ => true
  | x :: p', y :: s' => N.eqb x y && starts_with p' s'
  | _ :: _, [] => false
  end.

(** [s.includes(p)] *)
Fixpoint includes (s p : t) : bool :=
  starts_with p s ||
  match s with
  | [] => false
  | _ :: s' => includes s' p
  end.

(** Decimal rendering of a non-negative integer, as template literals
    render an HTTP status. *)
Definition of_N (n : N) : t :=
  lit (NilEmpty.string_of_uint (N.to_uint n)).

End JsString.

Definition jsstring : Type := JsString.t.
Definition js : string -> jsstring := JsString.lit.

(** ** JavaScript numbers *)

Module JsNumber.

Definition prec : Z := 53.
Definition emax : Z := 1024.

(** binary64 values *)
Definition t := spec_float.

Definition NaN : t := S754_nan.

(** The number denoted by an integer literal or held by an integer
    counter (exact below 2^53). *)
Definition of_Z (z : Z) : t := binary_normalize prec emax z 0 false.

(** [a / b] on numbers holding the integers [a] and [b]. *)
Definition div (a b : Z) : t := SFdiv prec emax (of_Z a) (of_Z b).

Definition ltb (a b : t) : bool := SFltb a b.

(** [Math.round]: the integer closest to [x], ties towards +infinity;
    NaN, the infinities and the zeros are returned unchanged, and a
    negative [x] that rounds to zero gives -0. *)
Definition Math_round (x : t) : t :=
  match x with
  | S754_finite s m e =>
      if 0 <=? e then x
      else
        let n := (2 * cond_Zopp s (Zpos m) + 2 ^ (- e)) / 2 ^ (1 - e) in
        if n =? 0 then S754_zero s else of_Z n
  | _ => x
  end.

(** [Math.min] of two arguments: NaN if either is NaN, and -0 is
    smaller than +0. *)
Definition Math_min (a b : t) : t :=
  match SFcompare a b with
  | None => NaN
  | Some Lt => a
  | Some Gt => b
  | Some Eq =>
      match a, b with
      | S754_zero sa, S754_zero sb => S754_zero (sa || sb)
      | _, _ => a
      end
  end.

(** [ToBoolean] on numbers: the zeros and NaN are falsy. *)
Definition truthy (x : t) : bool :=
  match x with
  | S754_zero _ | S754_nan => false
  | _ => true
  end.

(** [x] is the double a decimal literal for the positive fraction
    [num / den] denotes: a normal number [m * 2^(-k)] with a 53-bit
    mantissa, at most half a unit in the last place from [num / den]. *)
Definition is_double_of (num den : Z) (x : t) : Prop :=
  exists (m : positive) (k : Z),
    x = S754_finite false m (- k) /\
    2 ^ 52 <= Zpos m < 2 ^ 53 /\
    2 * Z.abs (Zpos m * den - num * 2 ^ k) <= den.

End JsNumber.

Definition jsnumber : Type := JsNumber.t.

(** ** JavaScript values and completions *)

(** The values [JSON.parse] produces, and [undefined] for what is absent.
    An object keeps its fields in their order of appearance; its keys are
    distinct, and property access finds the field with the given key. *)
#[warnings="-register-all"] Inductive jsval : Type :=
| JUndefined
| JNull
| JBool (b : bool)
| JNum (x : jsnumber)
| JStr (s : jsstring)
| JArr (elems : list jsval)
| JObj (fields : list (jsstring * jsval)).

(** A thrown [Error]: the handlers only ever read its [message]. *)
Record JsError := { message : jsstring }.

Inductive completion (A : Type) : Type :=
| Normal (a : A)
| Throw (e : JsError).
Arguments Normal {A} a.
Arguments Throw {A} e.

Definition bind {A B} (c : completion A) (k : A -> completion B) : completion B :=
  match c with
  | Normal a => k a
  | Throw e => Throw e
  end.

Declare Scope js_scope.
Delimit Scope js_scope with js.
Notation "x <- c ;; k" := (bind c (fun x => k))
  (at level 100, c at next level, right associativity) : js_scope.

Definition truthy (v : jsval) : bool :=
  match v with
  | JUndefined | JNull => false
  | JBool b => b
  | JNum x => JsNumber.truthy x
  | JStr s => match s with [] => false | _ => true end
  | JArr _ | JObj _ => true
  end.

Definition is_undefined (v : jsval) : bool :=
  match v with JUndefined => true | _ => false end.

Definition is_string (v : jsval) : bool :=
  match v with JStr _ => true | _ => false end.

Fixpoint lookup (k : jsstring) (fs : list (jsstring * jsval)) : option jsval :=
  match fs with
  | [] => None
  | (k', v) :: fs' => if JsString.eqb k k' then Some v else lookup k fs'
  end.

Definition keys (fs : list (jsstring * jsval)) : list jsstring := map fst fs.

(** V8's message for a property read on [undefined] or [null]. *)
Definition cannot_read (what : string) (k : jsstring) : JsError :=
  {| message := js "Cannot read properties of " ++ js what
                ++ js " (reading '" ++ k ++ js "')" |}.

(** [v.k] / [v[k]] for a key [k] that names no built-in property of
    arrays, strings, numbers or booleans (true of every key the program
    reads: results, categories, flagged, text and the category keys). *)
Definition get_prop (v : jsval) (k : jsstring) : completion jsval :=
  match v with
  | JUndefined => Throw (cannot_read "undefined" k)
  | JNull => Throw (cannot_read "null" k)
  | JObj fs => Normal (match lookup k fs with Some x => x | None => JUndefined end)
  | _ => Normal JUndefined
  end.

(** [v[0]] *)
Definition get_first (v : jsval) : completion jsval :=
  match v with
  | JUndefined => Throw (cannot_read "undefined" (js "0"))
  | JNull => Throw (cannot_read "null" (js "0"))
  | JArr l => Normal (match l with x :: _ => x | [] => JUndefined end)
  | JStr s => Normal (match s with c :: _ => JStr [c] | [] => JUndefined end)
  | JObj fs => Normal (match lookup (js "0") fs with Some x => x | None => JUndefined end)
  | _ => Normal JUndefined
  end.

Fixpoint for_in {S K : Type} (body : S -> K -> completion S)
  (ks : list K) (st : S) : completion S :=
  match ks with
  | [] => Normal st
  | k :: ks' => bind (body st k) (for_in body ks')
  end.

Definition nullish (v : jsval) : bool :=
  match v with JUndefined | JNull => true | _ => false end.

(** [v?.[0]] and [v?.k] *)
Definition opt_first (v : jsval) : completion jsval :=
  if nullish v then Normal JUndefined else get_first v.
Definition opt_prop (v : jsval) (k : jsstring) : completion jsval :=
  if nullish v then Normal JUndefined else get_prop v k.

(** The text of a value known to be a string. *)
Definition string_of (v : jsval) : jsstring :=
  match v with JStr s => s | _ => [] end.

(** ** Outbound HTTP and asynchronous code *)

(** An [AbortSignal] whose controller a timer aborts [aborts_after]
    milliseconds after the call was issued. *)
Record AbortSignal := { aborts_after : Z }.

(** The [init] argument of [fetch]. [body_json] is the value handed to
    [JSON.stringify]; [signal] is [None] when the call passes no signal. *)
Record FetchInit := {
  method : jsstring;
  headers : list (jsstring * jsstring);
  body_json : jsval;
  signal : option AbortSignal
}.

Record OutboundCall := {
  url : jsstring;
  init : FetchInit
}.

(** The [Response] a fetch resolves with: its status and what reading the
    body as text or as JSON completes with. *)
Record Response := {
  status : N;
  read_text : completion jsstring;
  read_json : completion jsval
}.

(** [response.ok] *)
Definition ok (r : Response) : bool :=
  N.leb 200 (status r) && N.leb (status r) 299.

(** How the moderation service behaves on a call: the promise settles
    after some milliseconds (with a response, or rejected by a network
    failure), or never settles. *)
Inductive FetchBehaviour :=
| Resolves (after_ms : Z) (r : Response)
| Rejects (after_ms : Z) (e : JsError)
| NeverSettles.

Record World := {
  upstream : OutboundCall -> FetchBehaviour;
  (** the message of the platform's AbortError *)
  abort_message : jsstring
}.

Inductive settled (A : Type) : Type :=
| Fulfilled (a : A)
| Rejected (e : JsError)
| Pending.
Arguments Fulfilled {A} a.
Arguments Rejected {A} e.
Arguments Pending {A}.

(** An asynchronous computation: it runs against the world, appends the
    outbound calls it issues to the trace, and its promise is fulfilled,
    rejected, or stays pending for ever. *)
Definition Async (A : Type) : Type :=
  World -> list OutboundCall -> settled A * list OutboundCall.

Module Async.

Definition ret {A} (a : A) : Async A := fun _ tr => (Fulfilled a, tr).

Definition throw {A} (e : JsError) : Async A := fun _ tr => (Rejected e, tr).

Definition bind {A B} (c : Async A) (k : A -> Async B) : Async B :=
  fun w tr =>
    match c w tr with
    | (Fulfilled a, tr') => k a w tr'
    | (Rejected e, tr') => (Rejected e, tr')
    | (Pending, tr') => (Pending, tr')
    end.

(** Synchronous code inside an [async] function. *)
Definition lift {A} (c : completion A) : Async A :=
  match c with
  | Normal a => ret a
  | Throw e => throw e
  end.

(** [try { c } catch (error) { h error }] *)
Definition try_catch {A} (c : Async A) (h : JsError -> Async A) : Async A :=
  fun w tr =>
    match c w tr with
    | (Rejected e, tr') => h e w tr'
    | r => r
    end.

(** [await fetch(url, init)]. Without a signal the call waits for the
    service however long it takes. With a signal, the call is aborted
    and rejects with the AbortError unless the service settles before
    the timer fires. *)
Definition fetch (u : jsstring) (i : FetchInit) : Async Response :=
  fun w tr =>
    let call := {| url := u; init := i |} in
    let aborted := Rejected {| message := abort_message w |} in
    let in_time (t : Z) :=
      match signal i with
      | None => true
      | Some s => t <? aborts_after s
      end in
    (match upstream w call with
     | Resolves t r => if in_time t then Fulfilled r else aborted
     | Rejects t e => if in_time t then Rejected e else aborted
     | NeverSettles =>
         match signal i with
         | None => Pending
         | Some _ => aborted
         end
     end, tr ++ [call]).

(** Run a handler from an empty trace. *)
Definition run {A} (c : Async A) (w : World) : settled A * list OutboundCall :=
  c w [].

End Async.

Declare Scope async_scope.
Delimit Scope async_scope with async.
Notation "x <- c ;; k" := (Async.bind c (fun x => k))
  (at level 100, c at next level, right associativity) : async_scope.

(** What an Express handler sends: [res.status(code).json(payload)]. *)
Record HttpResponse := {
  res_status : N;
  res_json : jsval
}.

(** [{ error, details }] *)
Definition error_payload (error details : jsstring) : jsval :=
  JObj [ (js "error", JStr error); (js "details", JStr details) ].

Definition moderation_url : jsstring := js "https://api.openai.com/v1/moderations".

(** [{ model: "omni-moderation-latest", input: text }] *)
Definition moderation_request (text : jsstring) : jsval :=
  JObj [ (js "model", JStr (js "omni-moderation-latest"));
         (js "input", JStr text) ].

(** [process.env]: the key is a string or missing. *)
Record ProcessEnv := { OPENAI_API_KEY : option jsstring }.

Definition env_value (v : option jsstring) : jsval :=
  match v with Some s => JStr s | None => JUndefined end.

(** [const { text } = req.body]: destructuring [undefined] or [null]
    throws, anything else is a property read. *)
Definition destructure_text (body : jsval) : completion jsval :=
  if nullish body then
    Throw {| message := js "Cannot destructure property 'text' of 'req.body' as it is "
                        ++ (match body with JNull => js "null" | _ => js "undefined" end)
                        ++ js "." |}
  else get_prop body (js "text").

(** ** [backend/server.js]: the handler of [POST /analyze] *)

Module Server.

Local Open Scope async_scope.

(** [return res.status(c).json(p)] *)
Definition respond (c : N) (p : jsval) : Async HttpResponse :=
  Async.ret {| res_status := c; res_json := p |}.

Definition analyze (env : ProcessEnv) (req_body : jsval) : Async HttpResponse :=
  Async.try_catch
    (text <- Async.lift (destructure_text req_body) ;;
     (* input validation *)
     if negb (truthy text) then
       respond 400 (error_payload (js "Text is required")
                      (js "Please provide text to analyze"))
     else if negb (is_string text) then
       respond 400 (error_payload (js "Invalid input type")
                      (js "Text must be a string"))
     else if JsString.length (JsString.trim (string_of text)) =? 0 then
       respond 400 (error_payload (js "Empty text")
                      (js "Please provide non-empty text to analyze"))
     else if JsString.length (string_of text) >? 10000 then
       respond 400 (error_payload (js "Text too long")
                      (js "Maximum 10,000 characters allowed"))
     (* API key check *)
     else if negb (truthy (env_value (OPENAI_API_KEY env))) then
       respond 500 (error_payload (js "Server configuration error")
                      (js "OpenAI API key is not configured. Please contact the administrator."))
     else
       response <- Async.fetch moderation_url
         {| method := js "POST";
            headers :=
              [ (js "Content-Type", js "application/json");
                (js "Authorization",
                 js "Bearer " ++ string_of (env_value (OPENAI_API_KEY env))) ];
            body_json := moderation_request (string_of text);
            signal := None |} ;;
       (* handle API errors *)
       if negb (ok response) then
         errorText <- Async.lift (read_text response) ;;
         if N.eqb (status response) 401 then
           respond 500 (error_payload (js "API authentication failed")
                          (js "Invalid or expired OpenAI API key"))
         else if N.eqb (status response) 429 then
           respond 429 (error_payload (js "Rate limit exceeded")
                          (js "Too many requests. Please try again later."))
         else
           respond 502 (error_payload (js "OpenAI API error")
                          (js "API returned status " ++ JsString.of_N (status response)))
       else
         (* parse and return response *)
         data <- Async.lift (read_json response) ;;
         (* console.log('   Flagged:', data.results?.[0]?.flagged) *)
         flagged <- Async.lift
           (bind (get_prop data (js "results")) (fun results =>
            bind (opt_first results) (fun first =>
            opt_prop first (js "flagged")))) ;;
         respond 200 data)
    (fun error =>
       if JsString.includes (message error) (js "fetch") then
         respond 502 (error_payload (js "Failed to connect to OpenAI")
                        (js "Could not reach OpenAI API. Please try again."))
       else
         respond 500 (error_payload (js "Internal server error") (message error))).

(** The health check route [GET /]. [now] is what
    [new Date().toISOString()] returns when the request is served. *)
Definition health (env : ProcessEnv) (now : jsstring) : HttpResponse :=
  {| res_status := 200;
     res_json :=
       JObj [ (js "status", JStr (js "running"));
              (js "message",
               JStr (js "AI Moderation Backend is running " ++ [55357%N; 56960%N]));
              (js "timestamp", JStr now);
              (js "apiKeyConfigured",
               JBool (negb (negb (truthy (env_value (OPENAI_API_KEY env))))));
              (js "endpoints",
               JObj [ (js "health", JStr (js "GET /"));
                      (js "analyze", JStr (js "POST /analyze")) ]) ] |}.

End Server.

(** ** The earlier revision of the handler *)

Module Part000.

Local Open Scope async_scope.

Definition respond (c : N) (p : jsval) : Async HttpResponse :=
  Async.ret {| res_status := c; res_json := p |}.

(** [{ error }] *)
Definition error_only (error : jsstring) : jsval :=
  JObj [ (js "error", JStr error) ].

Definition analyze (env : ProcessEnv) (req_body : jsval) : Async HttpResponse :=
  Async.try_catch
    (text <- Async.lift (destructure_text req_body) ;;
     if negb (truthy text) || negb (is_string text) then
       respond 400 (error_only (js "Valid text input is required"))
     else if negb (truthy (env_value (OPENAI_API_KEY env))) then
       respond 500 (error_only (js "Server configuration error (API key missing)"))
     else
       response <- Async.fetch moderation_url
         {| method := js "POST";
            headers :=
              [ (js "Content-Type", js "application/json");
                (js "Authorization",
                 js "Bearer " ++ string_of (env_value (OPENAI_API_KEY env))) ];
            body_json := moderation_request (string_of text);
            signal := None |} ;;
       if negb (ok response) then
         respond 502 (error_only (js "OpenAI moderation service failed"))
       else
         data <- Async.lift (read_json response) ;;
         respond 200 data)
    (fun error => respond 500 (error_only (js "Internal server error"))).

End Part000.

(** ** The browser script: score aggregation and severity bands *)

Module Frontend.

Local Open Scope js_scope.

Record CategoryScore := {
  name : jsstring;
  score : Z;
  raw : jsnumber
}.

Record AnalysisSummary := {
  overall : jsnumber;
  categories : list CategoryScore
}.

(** [categoryMap], in the order [for (const key in categoryMap)]
    enumerates it. *)
Definition categoryMap : list (jsstring * jsstring) :=
  [ (js "hate", js "Hate");
    (js "harassment", js "Harassment");
    (js "self-harm", js "Self Harm");
    (js "sexual", js "Sexual Content");
    (js "violence", js "Violence");
    (js "hate/threatening", js "Hate / Threat");
    (js "harassment/threatening", js "Harassment / Threat") ].

Record Acc := {
  acc_categories : list CategoryScore;
  total : Z;
  count : Z
}.

(** One iteration of the loop over [categoryMap]. *)
Definition loop_body (categories : jsval) (st : Acc)
  (entry : jsstring * jsstring) : completion Acc :=
  let (key, label) := entry in
  v <- get_prop categories key ;;
  if negb (is_undefined v) then
    let score := if truthy v then 85 else 5 in
    Normal {| acc_categories :=
                acc_categories st ++
                [ {| name := label; score := score;
                     raw := JsNumber.div score 100 |} ];
              total := total st + score;
              count := count st + 1 |}
  else Normal st.

Definition processApiResponse (data : jsval) : completion AnalysisSummary :=
  results <- get_prop data (js "results") ;;
  result <- get_first results ;;
  categories <- get_prop result (js "categories") ;;
  flagged <- get_prop result (js "flagged") ;;
  st <- for_in (loop_body categories) categoryMap
          {| acc_categories := []; total := 0; count := 0 |} ;;
  Normal {| overall :=
              if truthy flagged
              then JsNumber.Math_min (JsNumber.of_Z 100)
                     (JsNumber.Math_round (JsNumber.div (total st) (count st)))
              else JsNumber.Math_round (JsNumber.div (total st) (count st));
            categories := acc_categories st |}.

Inductive Severity := safe | warning | danger.

(** What [displayVerdict] writes to the page (the SVG markup of the icon
    is left out: it is fixed by the branch, like the title). *)
Record Verdict := {
  title : jsstring;
  subtitle : jsstring;
  iconClass : Severity
}.

Definition displayVerdict (overallScore : jsnumber) : Verdict :=
  if JsNumber.ltb overallScore (JsNumber.of_Z 30) then
    {| title := js "Content Safe";
       subtitle := js "No significant harmful content detected";
       iconClass := safe |}
  else if JsNumber.ltb overallScore (JsNumber.of_Z 70) then
    {| title := js "Moderate Risk Detected";
       subtitle := js "Some potentially harmful content found";
       iconClass := warning |}
  else
    {| title := js "High Risk Content";
       subtitle := js "Significant harmful content detected";
       iconClass := danger |}.

(** The [severityClass] that [createCategoryCard] gives a card. *)
Definition severityClass (category : CategoryScore) : Severity :=
  if score category <? 30 then safe
  else if score category <? 70 then warning
  else danger.

(** [CONFIG] is defined outside this file; the script reads these
    fields of it. *)
Record Config := {
  OPENAI_API_KEY : jsstring;
  OPENAI_MODERATION_URL : jsstring;
  REQUEST_TIMEOUT : Z;
  MAX_INPUT_LENGTH : Z
}.

Definition analyzeToxicity (CONFIG : Config) (text : jsstring)
  : Async AnalysisSummary :=
  (* controller = new AbortController(), aborted by a timer after
     CONFIG.REQUEST_TIMEOUT milliseconds; the timer is cleared once the
     fetch has resolved *)
  let controller := {| aborts_after := REQUEST_TIMEOUT CONFIG |} in
  Async.bind
    (Async.fetch (OPENAI_MODERATION_URL CONFIG)
       {| method := js "POST";
          headers :=
            [ (js "Content-Type", js "application/json");
              (js "Authorization", js "Bearer " ++ OPENAI_API_KEY CONFIG) ];
          body_json := moderation_request text;
          signal := Some controller |})
    (fun response =>
       if negb (ok response) then
         Async.throw {| message := js "OpenAI Moderation API error" |}
       else
         Async.bind (Async.lift (read_json response)) (fun data =>
         Async.lift (processApiResponse data))).

(** *** The page: application state and what the script does to the DOM *)

(** [AppState]; [lastAnalysisResults] is [None] while it is [null]. *)
Record AppState := {
  currentPage : jsstring;
  isAnalyzing : bool;
  lastAnalysisResults : option AnalysisSummary;
  isOnline : bool
}.

(** What [displayOverallScore] writes besides the animated number and
    the stroke offset of the circle: the stroke colour and the label. *)
Record OverallDisplay := {
  color : jsstring;
  label : jsstring
}.

(** The card [createCategoryCard] builds: the name and the score it
    prints, and the severity class of its bar. *)
Record Card := {
  card_name : jsstring;
  card_score : Z;
  card_class : Severity
}.

(** A call that [setTimeout] has scheduled. *)
Inductive Deferred :=
| HideSkeleton
| ShowPage (pageName : jsstring)
| AnimateBars
| ShowBanner
| HideBanner.

(** The writes to the DOM, in the order the script makes them:
    - [PagesHidden]: every [.page] loses the class [active];
    - [PageActivated]: the target page gets [active], the window scrolls
      to the top;
    - [ToastShown]: [showToast] appends a toast;
    - [AnalyzeButtonSet]: the loading class, label and disabled flag of
      the analyze button;
    - [SkeletonShown]: the skeleton loader replaces the results;
    - [VerdictShown], [OverallShown], [CategoriesShown]: what
      [displayVerdict], [displayOverallScore] and [displayCategories]
      write;
    - [BannerClass]: a class of the offline banner is added or removed;
    - [Scheduled]: a [setTimeout]. *)
Inductive UiEvent :=
| PagesHidden
| PageActivated (pageName : jsstring)
| ToastShown (message type : jsstring)
| AnalyzeButtonSet (loading : bool)
| SkeletonShown
| VerdictShown (v : Verdict)
| OverallShown (score : jsnumber) (o : OverallDisplay)
| CategoriesShown (cards : list Card)
| BannerClass (cls : jsstring) (added : bool)
| Scheduled (ms : Z) (what : Deferred).

Record Page := {
  app : AppState;
  textInput_value : jsstring;
  ui : list UiEvent
}.

Definition emit (e : UiEvent) (p : Page) : Page :=
  {| app := app p; textInput_value := textInput_value p; ui := ui p ++ [e] |}.

Definition set_app (a : AppState) (p : Page) : Page :=
  {| app := a; textInput_value := textInput_value p; ui := ui p |}.

(** The keys of [pageMap]; the three page elements exist. (The script
    only passes page names, never the name of a property every object
    inherits.) *)
Definition pageMap_has (pageName : jsstring) : bool :=
  JsString.eqb pageName (js "home") || JsString.eqb pageName (js "analyze")
  || JsString.eqb pageName (js "results").

Definition showPage (pageName : jsstring) (p : Page) : Page :=
  let p := emit PagesHidden p in
  if pageMap_has pageName then
    set_app {| currentPage := pageName;
               isAnalyzing := isAnalyzing (app p);
               lastAnalysisResults := lastAnalysisResults (app p);
               isOnline := isOnline (app p) |}
            (emit (PageActivated pageName) p)
  else p.

Definition showToast (message type : jsstring) (p : Page) : Page :=
  emit (ToastShown message type) p.

Definition setAnalyzingState (b : bool) (p : Page) : Page :=
  emit (AnalyzeButtonSet b)
    (set_app {| currentPage := currentPage (app p);
                isAnalyzing := b;
                lastAnalysisResults := lastAnalysisResults (app p);
                isOnline := isOnline (app p) |} p).

Definition showSkeletonLoader (p : Page) : Page := emit SkeletonShown p.

Definition hideSkeletonLoader (p : Page) : Page :=
  emit (Scheduled 800 HideSkeleton) p.

Definition displayOverallScore (score : jsnumber) : OverallDisplay :=
  if JsNumber.ltb score (JsNumber.of_Z 30) then
    {| color := js "var(--color-safe)"; label := js "Low Risk" |}
  else if JsNumber.ltb score (JsNumber.of_Z 70) then
    {| color := js "var(--color-warning)"; label := js "Moderate Risk" |}
  else
    {| color := js "var(--color-danger)"; label := js "High Risk" |}.

Definition createCategoryCard (category : CategoryScore) : Card :=
  {| card_name := name category;
     card_score := score category;
     card_class := severityClass category |}.

Definition displayCategories (cats : list CategoryScore) (p : Page) : Page :=
  emit (Scheduled 100 AnimateBars)
    (emit (CategoriesShown (map createCategoryCard cats)) p).

Definition displayResults (results : AnalysisSummary) (p : Page) : Page :=
  displayCategories (categories results)
    (emit (OverallShown (overall results) (displayOverallScore (overall results)))
       (emit (VerdictShown (displayVerdict (overall results)))
          (hideSkeletonLoader p))).

Definition handleAnalysisError (error : JsError) (p : Page) : Page :=
  let message :=
    if JsString.includes (message error) (js "timeout") then
      js "Request timed out. Please check your connection."
    else if JsString.includes (message error) (js "API") then
      js "API error. Please check your configuration."
    else if JsString.includes (message error) (js "network") then
      js "Network error. Please check your internet connection."
    else js "Analysis failed. Please try again." in
  emit (Scheduled 2000 (ShowPage (js "analyze")))
    (showToast message (js "error") p).

(** [`${n}`] for an integer. *)
Definition int_to_string (n : Z) : jsstring :=
  if n <? 0 then js "-" ++ JsString.of_N (Z.abs_N n) else JsString.of_N (Z.to_N n).

(** The key check of [initializeApp] and [handleAnalyzeClick]. *)
Definition key_not_configured (CONFIG : Config) : bool :=
  negb (truthy (JStr (OPENAI_API_KEY CONFIG)))
  || negb (JsString.starts_with (js "sk-") (OPENAI_API_KEY CONFIG)).

Definition initializeApp (CONFIG : Config) (p : Page) : Page :=
  let p := showPage (js "home") p in
  if key_not_configured CONFIG then
    showToast (js "OpenAI API key not configured") (js "error") p
  else p.

Definition handleAnalyzeClick (CONFIG : Config) (p : Page) : Async Page :=
  let text := JsString.trim (textInput_value p) in
  (* validation *)
  if negb (truthy (JStr text)) then
    Async.ret (showToast (js "Please enter text to analyze") (js "warning") p)
  else if JsString.length text >? MAX_INPUT_LENGTH CONFIG then
    Async.ret (showToast (js "Text exceeds maximum length of "
                          ++ int_to_string (MAX_INPUT_LENGTH CONFIG) ++ js " characters")
                 (js "error") p)
  else if negb (isOnline (app p)) then
    Async.ret (showToast (js "No internet connection. Please check your network.")
                 (js "error") p)
  else if key_not_configured CONFIG then
    Async.ret (showToast (js "OpenAI API key not configured") (js "error") p)
  else
    (* start analysis *)
    let p := showSkeletonLoader (showPage (js "results") (setAnalyzingState true p)) in
    fun w tr =>
      match analyzeToxicity CONFIG text w tr with
      | (Fulfilled results, tr') =>
          (* try *)
          let p := set_app {| currentPage := currentPage (app p);
                              isAnalyzing := isAnalyzing (app p);
                              lastAnalysisResults := Some results;
                              isOnline := isOnline (app p) |} p in
          (Fulfilled (setAnalyzingState false (displayResults results p)), tr')
      | (Rejected error, tr') =>
          (* catch, then finally *)
          (Fulfilled (setAnalyzingState false (handleAnalysisError error p)), tr')
      | (Pending, tr') => (Pending, tr')
      end.

Definition updateOfflineBanner (p : Page) : Page :=
  if isOnline (app p) then
    emit (Scheduled 350 HideBanner) (emit (BannerClass (js "show") false) p)
  else
    emit (Scheduled 10 ShowBanner) (emit (BannerClass (js "hidden") false) p).

Definition handleOnline (p : Page) : Page :=
  showToast (js "Connection restored") (js "success")
    (updateOfflineBanner
       (set_app {| currentPage := currentPage (app p);
                   isAnalyzing := isAnalyzing (app p);
                   lastAnalysisResults := lastAnalysisResults (app p);
                   isOnline := true |} p)).

Definition handleOffline (p : Page) : Page :=
  showToast (js "Connection lost") (js "error")
    (updateOfflineBanner
       (set_app {| currentPage := currentPage (app p);
                   isAnalyzing := isAnalyzing (app p);
                   lastAnalysisResults := lastAnalysisResults (app p);
                   isOnline := false |} p)).

(** The payload [{ results: [ { flagged, categories } ] }]. *)
Definition payload (flagged : jsval) (cats : list (jsstring * jsval)) : jsval :=
  JObj [ (js "results",
          JArr [ JObj [ (js "flagged", flagged);
                        (js "categories", JObj cats) ] ]) ].

(** A category mapping whose values are boolean flags. *)
Definition flags (m : list (jsstring * bool)) : list (jsstring * jsval) :=
  map (fun kb => (fst kb, JBool (snd kb))) m.

End Frontend.

(** ** Notions used in the statements *)

(** *** The aggregator *)

Definition Zsum (l : list Z) : Z := fold_right Z.add 0 l.

(** An entry of [categoryMap] whose key the category object [cats] of the
    payload defines. *)
Definition present (cats : list (jsstring * jsval))
  (entry : jsstring * jsstring) : bool :=
  match lookup (fst entry) cats with
  | Some v => negb (is_undefined v)
  | None => false
  end.

(** An entry whose flag is set. *)
Definition hit (cats : list (jsstring * jsval))
  (entry : jsstring * jsstring) : bool :=
  match lookup (fst entry) cats with
  | Some v => truthy v
  | None => false
  end.

Definition assigned (cats : list (jsstring * jsval))
  (entry : jsstring * jsstring) : Z :=
  if hit cats entry then 85 else 5.

Definition card (cats : list (jsstring * jsval))
  (entry : jsstring * jsstring) : Frontend.CategoryScore :=
  {| Frontend.name := snd entry;
     Frontend.score := assigned cats entry;
     Frontend.raw := JsNumber.div (assigned cats entry) 100 |}.

(** The categories the loop emits and the mean it rounds, read off the
    payload's category fields. *)
Definition emitted (cats : list (jsstring * jsval)) : list (jsstring * jsstring) :=
  filter (present cats) Frontend.categoryMap.

Definition mean_of (cats : list (jsstring * jsval)) : jsnumber :=
  JsNumber.Math_round
    (JsNumber.div (Zsum (map (assigned cats) (emitted cats)))
                  (Z.of_nat (List.length (emitted cats)))).

(** The fields a property read on [v] can find: those of an object, none
    for any other value. *)
Definition fields_of (v : jsval) : list (jsstring * jsval) :=
  match v with JObj fs => fs | _ => [] end.

(** The flag a boolean category mapping gives a key, if any. *)
Definition flag_of (m : list (jsstring * bool)) (k : jsstring) : option bool :=
  option_map snd (find (fun kb => JsString.eqb k (fst kb)) m).

(** What every emitted category looks like. *)
Definition five_or_eighty_five (c : Frontend.CategoryScore) : Prop :=
  (Frontend.score c = 5 /\ Frontend.raw c = JsNumber.div 5 100) \/
  (Frontend.score c = 85 /\ Frontend.raw c = JsNumber.div 85 100).

(** *** The relay *)

(** A service that behaves the same way on every call. *)
Definition stub_world (b : FetchBehaviour) : World :=
  {| upstream := fun _ => b; abort_message := js "The operation was aborted." |}.

(** The request body [{ "text": v }]. *)
Definition request (v : jsval) : jsval := JObj [ (js "text", v) ].

(** The call both revisions of the handler issue for text [s] with API
    key [key]: no timeout and no abort signal are passed. *)
Definition relay_call (key s : jsstring) : OutboundCall :=
  {| url := moderation_url;
     init := {| method := js "POST";
                headers := [ (js "Content-Type", js "application/json");
                             (js "Authorization", js "Bearer " ++ key) ];
                body_json := moderation_request s;
                signal := None |} |}.

(** The call [analyzeToxicity] issues: the only one that carries an
    abort signal. *)
Definition browser_call (CONFIG : Frontend.Config) (text : jsstring) : OutboundCall :=
  {| url := Frontend.OPENAI_MODERATION_URL CONFIG;
     init := {| method := js "POST";
                headers := [ (js "Content-Type", js "application/json");
                             (js "Authorization",
                              js "Bearer " ++ Frontend.OPENAI_API_KEY CONFIG) ];
                body_json := moderation_request text;
                signal := Some {| aborts_after := Frontend.REQUEST_TIMEOUT CONFIG |} |} |}.

(** The service has not settled call [c] when a timer of [timeout]
    milliseconds, started with the call, fires. *)
Definition not_settled_by (w : World) (c : OutboundCall) (timeout : Z) : Prop :=
  match upstream w c with
  | Resolves t _ | Rejects t _ => timeout <= t
  | NeverSettles => True
  end.

(** A string that passes the four checks of [Server.analyze]. *)
Definition valid_text (s : jsstring) : Prop :=
  JsString.trim s <> [] /\ JsString.length s <= 10000.

Definition sent (c : N) (p : jsval) : settled HttpResponse :=
  Fulfilled {| res_status := c; res_json := p |}.

(** The [catch] block of [Server.analyze]. *)
Definition caught (error : JsError) : settled HttpResponse :=
  if JsString.includes (message error) (js "fetch") then
    sent 502 (error_payload (js "Failed to connect to OpenAI")
                (js "Could not reach OpenAI API. Please try again."))
  else
    sent 500 (error_payload (js "Internal server error") (message error)).

(** *** The runs of the handlers, case by case *)

(** The value the log line of [Server.analyze] reads,
    [data.results?.[0]?.flagged]. *)
Definition logged_flag (data : jsval) : completion jsval :=
  bind (get_prop data (js "results")) (fun results =>
  bind (opt_first results) (fun first =>
  opt_prop first (js "flagged"))).

(** What [Server.analyze] settles to once it has issued call [c]. *)
Inductive ServerForwarded (w : World) (c : OutboundCall)
  : settled HttpResponse -> Prop :=
| sf_hangs :
    upstream w c = NeverSettles ->
    ServerForwarded w c Pending
| sf_network t e :
    upstream w c = Rejects t e ->
    ServerForwarded w c (caught e)
| sf_error_unread t r e :
    upstream w c = Resolves t r -> ok r = false -> read_text r = Throw e ->
    ServerForwarded w c (caught e)
| sf_error_status t r errorText :
    upstream w c = Resolves t r -> ok r = false ->
    read_text r = Normal errorText ->
    ServerForwarded w c
      (if N.eqb (status r) 401 then
         sent 500 (error_payload (js "API authentication failed")
                     (js "Invalid or expired OpenAI API key"))
       else if N.eqb (status r) 429 then
         sent 429 (error_payload (js "Rate limit exceeded")
                     (js "Too many requests. Please try again later."))
       else
         sent 502 (error_payload (js "OpenAI API error")
                     (js "API returned status " ++ JsString.of_N (status r))))
| sf_unparsable t r e :
    upstream w c = Resolves t r -> ok r = true -> read_json r = Throw e ->
    ServerForwarded w c (caught e)
| sf_log_throws t r data e :
    upstream w c = Resolves t r -> ok r = true -> read_json r = Normal data ->
    logged_flag data = Throw e ->
    ServerForwarded w c (caught e)
| sf_passed t r data v :
    upstream w c = Resolves t r -> ok r = true -> read_json r = Normal data ->
    logged_flag data = Normal v ->
    ServerForwarded w c (sent 200 data).

(** The runs of [Server.analyze]. *)
Inductive ServerRun (env : ProcessEnv) (body : jsval) (w : World)
  : settled HttpResponse * list OutboundCall -> Prop :=
| sr_no_body e :
    destructure_text body = Throw e ->
    ServerRun env body w (caught e, [])
| sr_missing text :
    destructure_text body = Normal text -> truthy text = false ->
    ServerRun env body w
      (sent 400 (error_payload (js "Text is required")
                   (js "Please provide text to analyze")), [])
| sr_not_string text :
    destructure_text body = Normal text -> truthy text = true ->
    is_string text = false ->
    ServerRun env body w
      (sent 400 (error_payload (js "Invalid input type")
                   (js "Text must be a string")), [])
| sr_blank s :
    destructure_text body = Normal (JStr s) -> s <> [] ->
    JsString.trim s = [] ->
    ServerRun env body w
      (sent 400 (error_payload (js "Empty text")
                   (js "Please provide non-empty text to analyze")), [])
| sr_too_long s :
    destructure_text body = Normal (JStr s) -> JsString.trim s <> [] ->
    JsString.length s > 10000 ->
    ServerRun env body w
      (sent 400 (error_payload (js "Text too long")
                   (js "Maximum 10,000 characters allowed")), [])
| sr_no_key s :
    destructure_text body = Normal (JStr s) -> valid_text s ->
    truthy (env_value (OPENAI_API_KEY env)) = false ->
    ServerRun env body w
      (sent 500 (error_payload (js "Server configuration error")
                   (js "OpenAI API key is not configured. Please contact the administrator.")),
       [])
| sr_forwarded s key o :
    destructure_text body = Normal (JStr s) -> valid_text s ->
    OPENAI_API_KEY env = Some key -> key <> [] ->
    ServerForwarded w (relay_call key s) o ->
    ServerRun env body w (o, [relay_call key s]).

(** The runs of [Part000.analyze]. *)
Inductive Part000Run (env : ProcessEnv) (body : jsval) (w : World)
  : settled HttpResponse * list OutboundCall -> Prop :=
| pr_no_body e :
    destructure_text body = Throw e ->
    Part000Run env body w
      (sent 500 (Part000.error_only (js "Internal server error")), [])
| pr_invalid text :
    destructure_text body = Normal text ->
    truthy text = false \/ is_string text = false ->
    Part000Run env body w
      (sent 400 (Part000.error_only (js "Valid text input is required")), [])
| pr_no_key s :
    destructure_text body = Normal (JStr s) -> s <> [] ->
    truthy (env_value (OPENAI_API_KEY env)) = false ->
    Part000Run env body w
      (sent 500 (Part000.error_only (js "Server configuration error (API key missing)")),
       [])
| pr_hangs s key :
    destructure_text body = Normal (JStr s) -> s <> [] ->
    OPENAI_API_KEY env = Some key -> key <> [] ->
    upstream w (relay_call key s) = NeverSettles ->
    Part000Run env body w (Pending, [relay_call key s])
| pr_network s key t e :
    destructure_text body = Normal (JStr s) -> s <> [] ->
    OPENAI_API_KEY env = Some key -> key <> [] ->
    upstream w (relay_call key s) = Rejects t e ->
    Part000Run env body w
      (sent 500 (Part000.error_only (js "Internal server error")),
       [relay_call key s])
| pr_error_status s key t r :
    destructure_text body = Normal (JStr s) -> s <> [] ->
    OPENAI_API_KEY env = Some key -> key <> [] ->
    upstream w (relay_call key s) = Resolves t r -> ok r = false ->
    Part000Run env body w
      (sent 502 (Part000.error_only (js "OpenAI moderation service failed")),
       [relay_call key s])
| pr_unparsable s key t r e :
    destructure_text body = Normal (JStr s) -> s <> [] ->
    OPENAI_API_KEY env = Some key -> key <> [] ->
    upstream w (relay_call key s) = Resolves t r -> ok r = true ->
    read_json r = Throw e ->
    Part000Run env body w
      (sent 500 (Part000.error_only (js "Internal server error")),
       [relay_call key s])
| pr_passed s key t r data :
    destructure_text body = Normal (JStr s) -> s <> [] ->
    OPENAI_API_KEY env = Some key -> key <> [] ->
    upstream w (relay_call key s) = Resolves t r -> ok r = true ->
    read_json r = Normal data ->
    Part000Run env body w (sent 200 data, [relay_call key s]).

(** *** Concrete inputs *)

Definition example_env : ProcessEnv := {| OPENAI_API_KEY := Some (js "sk-test") |}.

Definition example_config : Frontend.Config :=
  {| Frontend.OPENAI_API_KEY := js "sk-test";
     Frontend.OPENAI_MODERATION_URL := moderation_url;
     Frontend.REQUEST_TIMEOUT := 10000;
     Frontend.MAX_INPUT_LENGTH := 10000 |}.

(** A service that answers after 120 ms with the given status and body. *)
Definition answers (st : N) (txt : completion jsstring) (parsed : completion jsval) : World :=
  stub_world (Resolves 120 {| status := st; read_text := txt; read_json := parsed |}).

Definition invalid_json : JsError :=
  {| message := js "invalid json response body at https://api.openai.com/v1/moderations reason: Unexpected token < in JSON at position 0" |}.

(** A service that leaves a call without a signal unanswered and answers
    a call with a signal after 15 s. *)
Definition slow_world : World :=
  {| upstream := fun c =>
       match signal (init c) with
       | None => NeverSettles
       | Some _ => Resolves 15000
                     {| status := 200; read_text := Normal (js "{}");
                        read_json := Normal (JObj []) |}
       end;
     abort_message := js "The operation was aborted." |}.

(** The error node-fetch rejects with when the host cannot be resolved. *)
Definition dns_failure : JsError :=
  {| message := js "request to https://api.openai.com/v1/moderations failed, reason: getaddrinfo ENOTFOUND api.openai.com" |}.

(** The analyze page, online and idle, with [text] typed in. *)
Definition idle_page (text : jsstring) : Frontend.Page :=
  {| Frontend.app :=
       {| Frontend.currentPage := js "analyze";
          Frontend.isAnalyzing := false;
          Frontend.lastAnalysisResults := None;
          Frontend.isOnline := true |};
     Frontend.textInput_value := text;
     Frontend.ui := [] |}.

(** A text of 10,001 code units. *)
Definition long_text : jsstring := List.repeat 97%N (Z.to_nat 10001).

(** * Properties *)

(** ** Strings and field lookup *)

Lemma jsstring_eqb_eq (a b : jsstring) : JsString.eqb a b = true <-> a = b.
Proof.
  revert b; induction a as [|x a IH]; intros [|y b]; simpl;
    try (split; [discriminate | discriminate]); try tauto.
  rewrite andb_true_iff, N.eqb_eq, IH.
  split; [intros [-> ->]; reflexivity | intros H; injection H; auto].
Qed.

Lemma jsstring_eqb_refl (a : jsstring) : JsString.eqb a a = true.
Proof. apply jsstring_eqb_eq; reflexivity. Qed.

Lemma lookup_Some_In k v fs : lookup k fs = Some v -> In (k, v) fs.
Proof.
  induction fs as [|[k' v'] fs IH]; simpl; [discriminate|].
  destruct (JsString.eqb k k') eqn:E.
  - apply jsstring_eqb_eq in E; subst.
    intros H; injection H as ->; left; reflexivity.
  - intros H; right; auto.
Qed.

Lemma lookup_None_notin k fs : lookup k fs = None <-> ~ In k (keys fs).
Proof.
  induction fs as [|[k' v'] fs IH]; simpl; [tauto|].
  destruct (JsString.eqb k k') eqn:E.
  - apply jsstring_eqb_eq in E; subst.
    split; [discriminate | intros H; exfalso; apply H; left; reflexivity].
  - rewrite IH. split; [|tauto].
    intros H [H'|H']; [|tauto].
    subst; rewrite jsstring_eqb_refl in E; discriminate.
Qed.

Lemma In_lookup k v fs : NoDup (keys fs) -> In (k, v) fs -> lookup k fs = Some v.
Proof.
  induction fs as [|[k' v'] fs IH]; simpl; [tauto|].
  intros ND [H|H]; inversion ND as [|? ? Hnotin ND']; subst.
  - injection H as -> ->; rewrite jsstring_eqb_refl; reflexivity.
  - destruct (JsString.eqb k k') eqn:E; [|auto].
    apply jsstring_eqb_eq in E; subst.
    exfalso; apply Hnotin. change k' with (fst (k', v)). apply in_map, H.
Qed.

(** An object read field by field does not depend on the order in which
    its (distinct) keys were written. *)
Lemma lookup_Permutation k fs fs' :
  NoDup (keys fs) -> Permutation fs fs' -> lookup k fs = lookup k fs'.
Proof.
  intros ND P.
  assert (ND' : NoDup (keys fs'))
    by (eapply Permutation_NoDup; [apply Permutation_map, P | exact ND]).
  destruct (lookup k fs) as [v|] eqn:E.
  - symmetry; apply In_lookup; [exact ND'|].
    eapply Permutation_in; [exact P | apply lookup_Some_In, E].
  - symmetry; apply lookup_None_notin.
    apply lookup_None_notin in E.
    intros H; apply E.
    eapply Permutation_in; [apply Permutation_map, Permutation_sym, P | exact H].
Qed.

(** ** The loop of [processApiResponse] *)

Section Loop.

Import Frontend.

(** The fields of the [categories] object of the payload. *)
Variable cats : list (jsstring * jsval).

Lemma loop_body_object st entry :
  loop_body (JObj cats) st entry =
  Normal (if present cats entry
          then {| acc_categories := acc_categories st ++ [card cats entry];
                  total := total st + assigned cats entry;
                  count := count st + 1 |}
          else st).
Proof.
  destruct entry as [key label].
  unfold loop_body, get_prop, bind, present, card, assigned, hit.
  cbn [fst snd].
  destruct (lookup key cats) as [v|]; [|reflexivity].
  destruct (is_undefined v) eqn:U; cbn [negb]; [reflexivity|].
  destruct (truthy v); reflexivity.
Qed.

Lemma for_in_object ks st :
  for_in (loop_body (JObj cats)) ks st =
  Normal {| acc_categories := acc_categories st ++ map (card cats) (filter (present cats) ks);
            total := total st + Zsum (map (assigned cats) (filter (present cats) ks));
            count := count st + Z.of_nat (List.length (filter (present cats) ks)) |}.
Proof.
  revert st; induction ks as [|e ks IH]; intros st.
  - destruct st; cbn; rewrite app_nil_r, !Z.add_0_r; reflexivity.
  - cbn [for_in filter]. rewrite loop_body_object. cbn [bind].
    rewrite IH. destruct (present cats e).
    + cbn [acc_categories total count map Zsum fold_right List.length].
      rewrite <- app_assoc. cbn [app].
      f_equal; f_equal; unfold Zsum; lia.
    + reflexivity.
Qed.

Lemma Zsum_assigned es :
  Zsum (map (assigned cats) es) =
  5 * Z.of_nat (List.length es) + 80 * Z.of_nat (List.length (filter (hit cats) es)).
Proof.
  induction es as [|e es IH]; [reflexivity|].
  cbn [map Zsum fold_right filter List.length]; fold (Zsum (map (assigned cats) es)).
  rewrite IH; unfold assigned.
  destruct (hit cats e); cbn [List.length]; lia.
Qed.

Lemma filter_length_le {A} (f : A -> bool) (l : list A) :
  (List.length (filter f l) <= List.length l)%nat.
Proof.
  induction l as [|a l IH]; simpl; [lia|].
  destruct (f a); simpl; lia.
Qed.

End Loop.

(** ** binary64 facts about the mean of at most seven scores *)

Ltac enum_upto_7 x :=
  let H := fresh "H" in
  assert (H : x = 0 \/ x = 1 \/ x = 2 \/ x = 3 \/ x = 4 \/ x = 5 \/ x = 6 \/ x = 7)
    by lia;
  repeat (destruct H as [H|H]; [subst x|]); [..|subst x].

(** For [c] present categories of which [k] are flagged, the rounded
    double quotient is the exact round-half-up of the rational mean. *)
Lemma round_mean c k :
  1 <= c <= 7 -> 0 <= k <= c ->
  JsNumber.Math_round (JsNumber.div (5 * c + 80 * k) c) =
  JsNumber.of_Z ((2 * (5 * c + 80 * k) + c) / (2 * c)).
Proof.
  intros Hc Hk.
  enum_upto_7 c; try lia; enum_upto_7 k; try lia; vm_compute; reflexivity.
Qed.

(** The clamp [Math.min(100, _)] never changes that mean. *)
Lemma min_100_mean c k :
  1 <= c <= 7 -> 0 <= k <= c ->
  JsNumber.Math_min (JsNumber.of_Z 100)
    (JsNumber.of_Z ((2 * (5 * c + 80 * k) + c) / (2 * c))) =
  JsNumber.of_Z ((2 * (5 * c + 80 * k) + c) / (2 * c)).
Proof.
  intros Hc Hk.
  enum_upto_7 c; try lia; enum_upto_7 k; try lia; vm_compute; reflexivity.
Qed.

Lemma round_half_up_nearest t c n :
  0 < c -> n = (2 * t + c) / (2 * c) ->
  (2 * n - 1) * c <= 2 * t < (2 * n + 1) * c.
Proof.
  intros Hc ->.
  pose proof (Z.div_mod (2 * t + c) (2 * c) ltac:(lia)) as E.
  pose proof (Z.mod_pos_bound (2 * t + c) (2 * c) ltac:(lia)) as B.
  nia.
Qed.

(** ** [processApiResponse] on a moderation payload *)

Section Summary.

Import Frontend.

Lemma processApiResponse_payload flagged cats :
  processApiResponse (payload flagged cats) =
  Normal {| overall :=
              if truthy flagged
              then JsNumber.Math_min (JsNumber.of_Z 100) (mean_of cats)
              else mean_of cats;
            categories := map (card cats) (emitted cats) |}.
Proof.
  unfold processApiResponse, payload.
  replace (get_prop (JObj [(js "results",
             JArr [JObj [(js "flagged", flagged); (js "categories", JObj cats)]])])
             (js "results"))
    with (Normal (JArr [JObj [(js "flagged", flagged); (js "categories", JObj cats)]]))
    by reflexivity.
  cbn [bind get_first].
  replace (get_prop (JObj [(js "flagged", flagged); (js "categories", JObj cats)])
             (js "categories"))
    with (Normal (JObj cats)) by reflexivity.
  replace (get_prop (JObj [(js "flagged", flagged); (js "categories", JObj cats)])
             (js "flagged"))
    with (Normal flagged) by reflexivity.
  cbn [bind].
  rewrite for_in_object.
  cbn [bind acc_categories total count app Z.add].
  reflexivity.
Qed.

Lemma emitted_length_le cats : (List.length (emitted cats) <= 7)%nat.
Proof. apply (filter_length_le (present cats) categoryMap). Qed.

(** With at least one category present the overall score is the
    integer [round_half_up total count], whatever [flagged] is. *)
Lemma overall_payload flagged cats :
  emitted cats <> [] ->
  let t := Zsum (map (assigned cats) (emitted cats)) in
  let c := Z.of_nat (List.length (emitted cats)) in
  (if truthy flagged
   then JsNumber.Math_min (JsNumber.of_Z 100) (mean_of cats)
   else mean_of cats) = JsNumber.of_Z ((2 * t + c) / (2 * c))
  /\ 0 < c.
Proof.
  intros Hne t c.
  pose proof (emitted_length_le cats) as Hle.
  pose proof (filter_length_le (hit cats) (emitted cats)) as Hk.
  assert (Hc : 1 <= c <= 7).
  { subst c. destruct (emitted cats); [congruence|]. cbn [List.length] in *. lia. }
  assert (Ht : t = 5 * c + 80 * Z.of_nat (List.length (filter (hit cats) (emitted cats))))
    by (subst t c; apply Zsum_assigned).
  unfold mean_of. fold t c. rewrite Ht.
  set (k := Z.of_nat (List.length (filter (hit cats) (emitted cats)))) in *.
  assert (Hk' : 0 <= k <= c) by (subst k c; lia).
  rewrite round_mean by assumption.
  split; [|lia].
  destruct (truthy flagged); [apply min_100_mean; assumption | reflexivity].
Qed.

(** The summary depends on the category object only through what
    reading each of the seven keys returns. *)
Lemma processApiResponse_payload_ext flagged cats cats' :
  (forall k, In k (map fst categoryMap) -> lookup k cats = lookup k cats') ->
  processApiResponse (payload flagged cats) =
  processApiResponse (payload flagged cats').
Proof.
  intros H.
  assert (Hp : forall e, In e categoryMap -> present cats e = present cats' e).
  { intros e He; unfold present; rewrite (H (fst e)); [reflexivity|].
    apply in_map, He. }
  assert (Ha : forall e, In e categoryMap -> assigned cats e = assigned cats' e).
  { intros e He; unfold assigned, hit; rewrite (H (fst e)); [reflexivity|].
    apply in_map, He. }
  assert (Eem : emitted cats = emitted cats') by (apply filter_ext_in, Hp).
  assert (Ha' : forall e, In e (emitted cats') -> assigned cats e = assigned cats' e).
  { intros e He; apply Ha. apply filter_In in He; tauto. }
  rewrite !processApiResponse_payload.
  unfold mean_of. rewrite Eem.
  rewrite (map_ext_in _ _ _ Ha').
  replace (map (card cats) (emitted cats')) with (map (card cats') (emitted cats'));
    [reflexivity|].
  apply map_ext_in; intros e He; unfold card; rewrite (Ha' e He); reflexivity.
Qed.

End Summary.

(** ** The aggregator: claims about [processApiResponse] *)

Section AggregatorClaims.

Import Frontend.

Lemma lookup_flags m k : lookup k (flags m) = option_map JBool (flag_of m k).
Proof.
  unfold flag_of; induction m as [|[k' b] m IH]; [reflexivity|].
  cbn [flags map lookup find fst snd]. fold (flags m).
  destruct (JsString.eqb k k'); [reflexivity | exact IH].
Qed.

Lemma present_flags m e :
  present (flags m) e = match flag_of m (fst e) with Some _ => true | None => false end.
Proof.
  unfold present; rewrite lookup_flags.
  destruct (flag_of m (fst e)); reflexivity.
Qed.

Lemma assigned_flags m e :
  assigned (flags m) e = match flag_of m (fst e) with Some true => 85 | _ => 5 end.
Proof.
  unfold assigned, hit; rewrite lookup_flags.
  destruct (flag_of m (fst e)) as [[|]|]; reflexivity.
Qed.

(** C1. For a moderation result whose boolean category mapping defines
    at least one of the seven keys, [processApiResponse] emits one
    category per defined key, in [categoryMap] order and skipping the
    undefined ones, scored 85 when its flag is true and 5 when it is
    false, and [overall] is the integer nearest to total / count (ties
    upwards), where total and count are the sum and the number of the
    emitted scores. *)
Theorem summarize_scores_and_rounded_mean (flagged : bool) (m : list (jsstring * bool)) :
  (exists k, In k (map fst categoryMap) /\ flag_of m k <> None) ->
  let present_entries :=
    filter (fun e => match flag_of m (fst e) with Some _ => true | None => false end)
           categoryMap in
  let scores :=
    map (fun e => match flag_of m (fst e) with Some true => 85 | _ => 5 end)
        present_entries in
  let total := Zsum scores in
  let count := Z.of_nat (List.length scores) in
  exists s n,
    processApiResponse (payload (JBool flagged) (flags m)) = Normal s /\
    map name (categories s) = map snd present_entries /\
    map score (categories s) = scores /\
    overall s = JsNumber.of_Z n /\
    (2 * n - 1) * count <= 2 * total < (2 * n + 1) * count.
Proof.
  intros [k [Hin Hk]] present_entries scores total count.
  assert (Eem : emitted (flags m) = present_entries)
    by (apply filter_ext; intros e; apply present_flags).
  assert (Esc : map (assigned (flags m)) (emitted (flags m)) = scores).
  { rewrite Eem; apply map_ext; intros e; apply assigned_flags. }
  assert (Hne : emitted (flags m) <> []).
  { rewrite Eem. apply in_map_iff in Hin as [e [<- He]].
    assert (In e present_entries) as Hp.
    { apply filter_In; split; [exact He|]. destruct (flag_of m (fst e)); congruence. }
    intros E; rewrite E in Hp; exact Hp. }
  destruct (overall_payload (JBool flagged) (flags m) Hne) as [Hov Hc].
  rewrite Esc in Hov.
  assert (Ecount : Z.of_nat (List.length (emitted (flags m))) = count)
    by (subst count; rewrite <- Esc, length_map; reflexivity).
  rewrite Ecount in Hov, Hc. fold total in Hov.
  eexists; exists ((2 * total + count) / (2 * count)).
  split; [apply processApiResponse_payload|].
  cbn [categories overall].
  rewrite !map_map. cbn [name score card].
  repeat split.
  - rewrite Eem; reflexivity.
  - exact Esc.
  - exact Hov.
  - apply (round_half_up_nearest total count); [exact Hc | reflexivity].
  - apply (round_half_up_nearest total count); [exact Hc | reflexivity].
Qed.

Lemma summarize_scores_and_rounded_mean_witness :
  exists s,
    processApiResponse
      (payload (JBool true) (flags [(js "violence", false); (js "hate", true)]))
    = Normal s /\
    map score (categories s) = [85; 5] /\
    overall s = JsNumber.of_Z 45.
Proof.
  destruct (summarize_scores_and_rounded_mean true
              [(js "violence", false); (js "hate", true)])
    as (s & n & Hs & _ & Hscores & Hov & Hlo & Hhi).
  - exists (js "hate"); split; [left; reflexivity | vm_compute; discriminate].
  - exists s; repeat split; [exact Hs | exact Hscores |].
    rewrite Hov; f_equal.
    assert (Hlo' : (2 * n - 1) * 2 <= 2 * 90) by exact Hlo.
    assert (Hhi' : 2 * 90 < (2 * n + 1) * 2) by exact Hhi.
    lia.
Defined.

(** C4. When the payload defines none of the seven keys the division is
    not guarded: [total / count] is 0 / 0, [overall] is NaN and no
    category is emitted; nothing fails and no default is applied.
    [displayVerdict] then bands the NaN as danger. *)
Theorem no_categories_overall_is_NaN (flagged : jsval) :
  exists s,
    processApiResponse (payload flagged []) = Normal s /\
    categories s = [] /\
    overall s = JsNumber.NaN /\
    overall s <> JsNumber.of_Z 0 /\
    iconClass (displayVerdict (overall s)) = danger.
Proof.
  rewrite processApiResponse_payload.
  eexists; split; [reflexivity|].
  cbn [categories overall].
  destruct (truthy flagged);
    (split; [|split; [|split]]; vm_compute; try reflexivity; discriminate).
Qed.

(** C5. With all seven keys defined, [hate] true and the other six
    false, the summary has seven categories in the fixed order, Hate
    scored 85 and the others 5, [overall] is 16 and [displayVerdict]
    bands it safe although the hate category is flagged. *)
Theorem hate_only_overall_16_is_safe (flagged : jsval) (cats : list (jsstring * jsval)) :
  lookup (js "hate") cats = Some (JBool true) ->
  (forall k,
      In k [ js "harassment"; js "self-harm"; js "sexual"; js "violence";
             js "hate/threatening"; js "harassment/threatening" ] ->
      lookup k cats = Some (JBool false)) ->
  exists s,
    processApiResponse (payload flagged cats) = Normal s /\
    map (fun c => (name c, score c)) (categories s) =
      [ (js "Hate", 85); (js "Harassment", 5); (js "Self Harm", 5);
        (js "Sexual Content", 5); (js "Violence", 5);
        (js "Hate / Threat", 5); (js "Harassment / Threat", 5) ] /\
    overall s = JsNumber.of_Z 16 /\
    (2 * 16 - 1) * 7 <= 2 * (85 + 5 * 6) < (2 * 16 + 1) * 7 /\
    iconClass (displayVerdict (overall s)) = safe.
Proof.
  intros Hhate Hrest.
  set (canon := flags [ (js "hate", true); (js "harassment", false);
                        (js "self-harm", false); (js "sexual", false);
                        (js "violence", false); (js "hate/threatening", false);
                        (js "harassment/threatening", false) ]).
  assert (E : processApiResponse (payload flagged cats) =
              processApiResponse (payload flagged canon)).
  { apply processApiResponse_payload_ext. intros k Hk.
    unfold categoryMap in Hk; cbn [map fst In] in Hk.
    destruct Hk as [<-|Hk].
    - transitivity (Some (JBool true)); [exact Hhate | reflexivity].
    - transitivity (Some (JBool false)).
      + apply Hrest. cbn [In]. tauto.
      + cbn [In] in Hk.
        repeat (destruct Hk as [<-|Hk]; [reflexivity|]). contradiction. }
  rewrite E, processApiResponse_payload.
  eexists; split; [reflexivity|].
  cbn [categories overall].
  destruct (truthy flagged);
    (repeat split; try lia; vm_compute; reflexivity).
Qed.

Lemma hate_only_overall_16_is_safe_witness :
  exists s,
    processApiResponse
      (payload (JBool true)
         (flags [ (js "sexual", false); (js "hate", true);
                  (js "harassment/threatening", false); (js "violence", false);
                  (js "self-harm", false); (js "harassment", false);
                  (js "hate/threatening", false) ])) = Normal s /\
    overall s = JsNumber.of_Z 16 /\
    iconClass (displayVerdict (overall s)) = safe.
Proof.
  destruct (hate_only_overall_16_is_safe (JBool true)
              (flags [ (js "sexual", false); (js "hate", true);
                       (js "harassment/threatening", false); (js "violence", false);
                       (js "self-harm", false); (js "harassment", false);
                       (js "hate/threatening", false) ]))
    as (s & Hs & _ & Hov & _ & Hband).
  - reflexivity.
  - intros k Hk. cbn [In] in Hk.
    repeat (destruct Hk as [<-|Hk]; [reflexivity|]). contradiction.
  - exists s; repeat split; assumption.
Defined.

(** C9. [processApiResponse] is a function of its argument, its result
    does not depend on the order in which the payload writes its
    (distinct) category keys, and the emitted categories follow the
    order of [categoryMap]: hate, harassment, self-harm, sexual,
    violence, hate/threatening, harassment/threatening. *)
Theorem summary_independent_of_key_order
  (flagged : jsval) (cats cats' : list (jsstring * jsval)) :
  NoDup (keys cats) ->
  Permutation cats cats' ->
  processApiResponse (payload flagged cats) =
    processApiResponse (payload flagged cats') /\
  exists s,
    processApiResponse (payload flagged cats') = Normal s /\
    map name (categories s) =
      map snd (filter (present cats)
                 [ (js "hate", js "Hate");
                   (js "harassment", js "Harassment");
                   (js "self-harm", js "Self Harm");
                   (js "sexual", js "Sexual Content");
                   (js "violence", js "Violence");
                   (js "hate/threatening", js "Hate / Threat");
                   (js "harassment/threatening", js "Harassment / Threat") ]).
Proof.
  intros ND P.
  assert (E : processApiResponse (payload flagged cats) =
              processApiResponse (payload flagged cats')).
  { apply processApiResponse_payload_ext.
    intros k _. apply lookup_Permutation; assumption. }
  split; [exact E|].
  rewrite <- E, processApiResponse_payload.
  eexists; split; [reflexivity|].
  cbn [categories]. rewrite map_map. reflexivity.
Qed.

Lemma summary_independent_of_key_order_witness :
  processApiResponse
    (payload (JBool true) (flags [(js "hate", true); (js "violence", false)])) =
  processApiResponse
    (payload (JBool true) (flags [(js "violence", false); (js "hate", true)])).
Proof.
  apply (summary_independent_of_key_order (JBool true)
           (flags [(js "hate", true); (js "violence", false)])
           (flags [(js "violence", false); (js "hate", true)])).
  - repeat constructor; cbn [In]; intros H;
      repeat (destruct H as [H|H]; [discriminate H|]); exact H.
  - apply perm_swap.
Defined.

Lemma loop_body_scores categories st entry st' :
  loop_body categories st entry = Normal st' ->
  Forall five_or_eighty_five (acc_categories st) ->
  Forall five_or_eighty_five (acc_categories st').
Proof.
  destruct entry as [key label]; unfold loop_body.
  destruct (get_prop categories key) as [v|e]; cbn [bind]; [|discriminate].
  destruct (negb (is_undefined v)); intros H; injection H as <-; [|tauto].
  intros Hst; cbn [acc_categories].
  apply Forall_app; split; [exact Hst|].
  constructor; [|constructor].
  destruct (truthy v); [right | left]; split; reflexivity.
Qed.

Lemma for_in_scores categories ks st st' :
  for_in (loop_body categories) ks st = Normal st' ->
  Forall five_or_eighty_five (acc_categories st) ->
  Forall five_or_eighty_five (acc_categories st').
Proof.
  revert st; induction ks as [|e ks IH]; intros st; cbn [for_in].
  - intros H; injection H as <-; tauto.
  - destruct (loop_body categories st e) as [st1|err] eqn:E; cbn [bind];
      [|discriminate].
    intros H Hst. apply (IH st1 H). apply (loop_body_scores _ _ _ _ E Hst).
Qed.

Lemma double_0_05 : JsNumber.is_double_of 5 100 (JsNumber.div 5 100).
Proof.
  exists 7205759403792794%positive, 57.
  split; [vm_compute; reflexivity|]. split; [lia|]. vm_compute; discriminate.
Qed.

Lemma double_0_85 : JsNumber.is_double_of 85 100 (JsNumber.div 85 100).
Proof.
  exists 7656119366529843%positive, 53.
  split; [vm_compute; reflexivity|]. split; [lia|]. vm_compute; discriminate.
Qed.

(** C10. Whatever the payload, every category that [processApiResponse]
    emits has score 5 or 85 and [raw] equal to the double quotient
    score / 100, which is the double that 0.05 (resp. 0.85) denotes;
    [createCategoryCard] therefore bands it safe (5 < 30) or danger
    (85 >= 70), never warning. *)
Theorem category_score_is_5_or_85 (data : jsval) (s : AnalysisSummary) (c : CategoryScore) :
  processApiResponse data = Normal s ->
  In c (categories s) ->
  raw c = JsNumber.div (score c) 100 /\
  severityClass c <> warning /\
  ((score c = 5 /\ JsNumber.is_double_of 5 100 (raw c) /\ severityClass c = safe) \/
   (score c = 85 /\ JsNumber.is_double_of 85 100 (raw c) /\ severityClass c = danger)).
Proof.
  unfold processApiResponse.
  destruct (get_prop data (js "results")) as [results|]; cbn [bind]; [|discriminate].
  destruct (get_first results) as [result|]; cbn [bind]; [|discriminate].
  destruct (get_prop result (js "categories")) as [cs|]; cbn [bind]; [|discriminate].
  destruct (get_prop result (js "flagged")) as [fl|]; cbn [bind]; [|discriminate].
  destruct (for_in (loop_body cs) categoryMap
              {| acc_categories := []; total := 0; count := 0 |}) as [st|] eqn:E;
    cbn [bind]; [|discriminate].
  intros H; injection H as <-; cbn [categories].
  intros Hin.
  pose proof (for_in_scores _ _ _ _ E (Forall_nil _)) as Hall.
  rewrite Forall_forall in Hall.
  destruct (Hall c Hin) as [[Hs Hr]|[Hs Hr]]; unfold severityClass; rewrite Hs, Hr.
  - split; [reflexivity|]. split; [discriminate|].
    left; repeat split; apply double_0_05.
  - split; [reflexivity|]. split; [discriminate|].
    right; repeat split; apply double_0_85.
Qed.

Lemma category_score_is_5_or_85_witness :
  severityClass {| name := js "Hate"; score := 85; raw := JsNumber.div 85 100 |}
    <> warning /\
  JsNumber.is_double_of 85 100 (JsNumber.div 85 100).
Proof.
  destruct (category_score_is_5_or_85
              (payload (JBool true) (flags [(js "hate", true)]))
              {| overall := JsNumber.of_Z 85;
                 categories :=
                   [ {| name := js "Hate"; score := 85;
                        raw := JsNumber.div 85 100 |} ] |}
              {| name := js "Hate"; score := 85; raw := JsNumber.div 85 100 |})
    as (_ & Hw & [(H5 & _)|(_ & Hd & _)]).
  - vm_compute; reflexivity.
  - left; reflexivity.
  - discriminate H5.
  - split; [exact Hw | exact Hd].
Defined.

End AggregatorClaims.

(** ** The relay: what the handlers do on a request *)


Ltac run_handler :=
  cbn [Async.run Async.try_catch Async.bind Async.lift Async.ret Async.throw
       Async.fetch Server.respond Part000.respond bind negb orb andb
       string_of is_string env_value signal init url].

Lemma length_eqb_0 (s : jsstring) :
  (JsString.length s =? 0) = match s with [] => true | _ => false end.
Proof.
  destruct s as [|c s]; [reflexivity|].
  unfold JsString.length; cbn [List.length].
  apply Z.eqb_neq; lia.
Qed.

Lemma trim_nonempty (s : jsstring) : JsString.trim s <> [] -> s <> [].
Proof. intros H ->; apply H; reflexivity. Qed.

Lemma valid_text_checks (s : jsstring) :
  valid_text s ->
  truthy (JStr s) = true /\
  (JsString.length (JsString.trim s) =? 0) = false /\
  (JsString.length s >? 10000) = false.
Proof.
  intros [Ht Hl]. repeat split.
  - apply trim_nonempty in Ht. destruct s; [congruence | reflexivity].
  - rewrite length_eqb_0. destruct (JsString.trim s); [congruence | reflexivity].
  - rewrite Z.gtb_ltb. apply Z.ltb_ge, Hl.
Qed.

Lemma key_truthy (key : jsstring) : key <> [] -> truthy (JStr key) = true.
Proof. destruct key; [congruence | reflexivity]. Qed.

(** ** The relay: validation and configuration (C2, C8) *)

Section RelayRejections.

Variable env : ProcessEnv.
Variable w : World.

(** C2, as the code has it. A request is answered with status 400 and
    no outbound call when its text is falsy (absent, null, false, 0,
    NaN or the empty string: "Text is required"), truthy but not a
    string ("Invalid input type"), a non-empty string that trimming
    empties ("Empty text"), or a string of more than 10,000 code units
    that trimming does not empty ("Text too long"); the checks run in
    that order and the first that fails answers. *)
Theorem invalid_text_rejected_before_any_call (body text : jsval) :
  destructure_text body = Normal text ->
  (truthy text = false ->
   Async.run (Server.analyze env body) w =
     (sent 400 (error_payload (js "Text is required")
                  (js "Please provide text to analyze")), [])) /\
  (truthy text = true -> is_string text = false ->
   Async.run (Server.analyze env body) w =
     (sent 400 (error_payload (js "Invalid input type")
                  (js "Text must be a string")), [])) /\
  (forall s, text = JStr s -> s <> [] -> JsString.trim s = [] ->
   Async.run (Server.analyze env body) w =
     (sent 400 (error_payload (js "Empty text")
                  (js "Please provide non-empty text to analyze")), [])) /\
  (forall s, text = JStr s -> JsString.trim s <> [] ->
   JsString.length s > 10000 ->
   Async.run (Server.analyze env body) w =
     (sent 400 (error_payload (js "Text too long")
                  (js "Maximum 10,000 characters allowed")), [])).
Proof.
  intros Hb.
  unfold Async.run, Server.analyze, Async.try_catch.
  unfold Async.bind at 1. rewrite Hb. run_handler.
  repeat split.
  - intros ->. reflexivity.
  - intros -> ->. reflexivity.
  - intros s -> Hs Ht.
    assert (truthy (JStr s) = true) as -> by (destruct s; [congruence | reflexivity]).
    run_handler. rewrite Ht. reflexivity.
  - intros s -> Ht Hl.
    assert (truthy (JStr s) = true) as ->
      by (apply trim_nonempty in Ht; destruct s; [congruence | reflexivity]).
    run_handler.
    rewrite length_eqb_0. destruct (JsString.trim s) eqn:E; [congruence|].
    assert ((JsString.length s >? 10000) = true) as ->
      by (rewrite Z.gtb_ltb; apply Z.ltb_lt; lia).
    reflexivity.
Qed.

(** C8. A request whose text passes validation is answered with the 500
    configuration error, and no outbound call is made, when the API key
    is missing from the environment (or set to the empty string); the
    same holds of the earlier revision, whose validation only asks for
    a non-empty string. *)
Theorem missing_key_rejected_before_any_call (body : jsval) (s : jsstring) :
  destructure_text body = Normal (JStr s) ->
  OPENAI_API_KEY env = None \/ OPENAI_API_KEY env = Some [] ->
  (valid_text s ->
   Async.run (Server.analyze env body) w =
     (sent 500 (error_payload (js "Server configuration error")
                  (js "OpenAI API key is not configured. Please contact the administrator.")),
      [])) /\
  (s <> [] ->
   Async.run (Part000.analyze env body) w =
     (sent 500 (Part000.error_only (js "Server configuration error (API key missing)")),
      [])).
Proof.
  intros Hb Hk.
  assert (Hkey : truthy (env_value (OPENAI_API_KEY env)) = false)
    by (destruct Hk as [-> | ->]; reflexivity).
  split.
  - intros Hv. destruct (valid_text_checks s Hv) as (Ht & Hz & Hl).
    unfold Async.run, Server.analyze, Async.try_catch.
    unfold Async.bind at 1. rewrite Hb. run_handler.
    rewrite Ht, Hz, Hl, Hkey. reflexivity.
  - intros Hs.
    assert (Ht : truthy (JStr s) = true) by (destruct s; [congruence | reflexivity]).
    unfold Async.run, Part000.analyze, Async.try_catch.
    unfold Async.bind at 1. rewrite Hb. run_handler.
    rewrite Ht, Hkey. reflexivity.
Qed.

End RelayRejections.

(** ** The relay: a valid request with a configured key (C3, C6, C7) *)

Ltac enter_server Hb Hv Hk Hk' :=
  let Ht := fresh "Ht" in
  let Hz := fresh "Hz" in
  let Hl := fresh "Hl" in
  destruct (valid_text_checks _ Hv) as (Ht & Hz & Hl);
  unfold Async.run, Server.analyze, Async.try_catch;
  unfold Async.bind at 1; rewrite Hb; run_handler;
  rewrite Ht, Hz, Hl, Hk; run_handler;
  rewrite (key_truthy _ Hk'); run_handler.

Ltac enter_part000 Hb Hs Hk Hk' :=
  let Ht := fresh "Ht" in
  assert (Ht := key_truthy _ Hs);
  unfold Async.run, Part000.analyze, Async.try_catch;
  unfold Async.bind at 1; rewrite Hb; run_handler;
  rewrite Ht, Hk; run_handler;
  rewrite (key_truthy _ Hk'); run_handler.

Section RelayForwarding.

Variable env : ProcessEnv.
Variable w : World.
Variable body : jsval.
Variables s key : jsstring.

Hypothesis Hbody : destructure_text body = Normal (JStr s).
Hypothesis Hkey : OPENAI_API_KEY env = Some key.
Hypothesis Hkey_set : key <> [].

(** What [Server.analyze] answers once the service has responded with a
    non-success status whose body could be read. *)
Lemma server_on_error_status t r errorText :
  valid_text s ->
  upstream w (relay_call key s) = Resolves t r ->
  ok r = false ->
  read_text r = Normal errorText ->
  Async.run (Server.analyze env body) w =
    (if N.eqb (status r) 401 then
       sent 500 (error_payload (js "API authentication failed")
                   (js "Invalid or expired OpenAI API key"))
     else if N.eqb (status r) 429 then
       sent 429 (error_payload (js "Rate limit exceeded")
                   (js "Too many requests. Please try again later."))
     else
       sent 502 (error_payload (js "OpenAI API error")
                   (js "API returned status " ++ JsString.of_N (status r))),
     [relay_call key s]).
Proof.
  intros Hv Hup Hok Hread.
  enter_server Hbody Hv Hkey Hkey_set.
  unfold relay_call in Hup. rewrite Hup. run_handler.
  rewrite Hok, Hread. run_handler.
  destruct (N.eqb (status r) 401); [reflexivity|].
  destruct (N.eqb (status r) 429); reflexivity.
Qed.

(** C3, as the code has it. On a non-success status whose error body
    was read, the answer is fixed by the status alone: 401 gives
    "API authentication failed" with local status 500, 429 gives
    "Rate limit exceeded" with local status 429, and every other status
    gives "OpenAI API error" with local status 502 and the upstream
    status in the details. Exactly one call was made. *)
Theorem upstream_error_status_mapping t r errorText :
  valid_text s ->
  upstream w (relay_call key s) = Resolves t r ->
  ok r = false ->
  read_text r = Normal errorText ->
  exists res,
    Async.run (Server.analyze env body) w = (Fulfilled res, [relay_call key s]) /\
    (status r = 401%N ->
     res = {| res_status := 500;
              res_json := error_payload (js "API authentication failed")
                            (js "Invalid or expired OpenAI API key") |}) /\
    (status r = 429%N ->
     res = {| res_status := 429;
              res_json := error_payload (js "Rate limit exceeded")
                            (js "Too many requests. Please try again later.") |}) /\
    (status r <> 401%N -> status r <> 429%N ->
     res = {| res_status := 502;
              res_json := error_payload (js "OpenAI API error")
                            (js "API returned status " ++ JsString.of_N (status r)) |}).
Proof.
  intros Hv Hup Hok Hread.
  rewrite (server_on_error_status t r errorText Hv Hup Hok Hread).
  destruct (N.eqb (status r) 401) eqn:E401;
    [|destruct (N.eqb (status r) 429) eqn:E429];
    (eexists; split; [reflexivity|]);
    rewrite ?N.eqb_eq, ?N.eqb_neq in *;
    repeat split; intros; try reflexivity; try congruence.
  all: exfalso; rewrite E401 in *; discriminate.
Qed.

Lemma flagged_log_normal data :
  nullish data = false ->
  exists v,
    bind (get_prop data (js "results")) (fun results =>
    bind (opt_first results) (fun first => opt_prop first (js "flagged")))
    = Normal v.
Proof.
  intros Hn.
  assert (Hp : forall v k, nullish v = false -> exists x, get_prop v k = Normal x)
    by (intros [] k H; try discriminate H; eexists; reflexivity).
  assert (Hf : forall v, nullish v = false -> exists x, get_first v = Normal x)
    by (intros [] H; try discriminate H; eexists; reflexivity).
  destruct (Hp data (js "results") Hn) as [results ->]; cbn [bind].
  unfold opt_first.
  destruct (nullish results) eqn:Er.
  - cbn [bind]. unfold opt_prop. eexists; reflexivity.
  - destruct (Hf results Er) as [first ->]; cbn [bind].
    unfold opt_prop. destruct (nullish first) eqn:Ef; [eexists; reflexivity|].
    apply Hp, Ef.
Qed.

(** C7, as the code has it. On a success status both revisions parse
    the body as JSON and check no shape. When parsing throws, the catch
    block answers: [Server.analyze] with 502 "Failed to connect to
    OpenAI" if the message contains "fetch" and with the generic 500
    "Internal server error" otherwise, the earlier revision always with
    500 "Internal server error". When parsing gives a value other than
    null, that value is sent back unchanged with status 200. *)
Theorem success_body_passed_through_or_caught t r :
  valid_text s ->
  upstream w (relay_call key s) = Resolves t r ->
  ok r = true ->
  (forall e, read_json r = Throw e ->
     Async.run (Server.analyze env body) w =
       (if JsString.includes (message e) (js "fetch") then
          sent 502 (error_payload (js "Failed to connect to OpenAI")
                      (js "Could not reach OpenAI API. Please try again."))
        else
          sent 500 (error_payload (js "Internal server error") (message e)),
        [relay_call key s]) /\
     Async.run (Part000.analyze env body) w =
       (sent 500 (Part000.error_only (js "Internal server error")),
        [relay_call key s])) /\
  (forall data, read_json r = Normal data -> nullish data = false ->
     Async.run (Server.analyze env body) w = (sent 200 data, [relay_call key s]) /\
     Async.run (Part000.analyze env body) w = (sent 200 data, [relay_call key s])).
Proof.
  intros Hv Hup Hok.
  assert (Hs : s <> []) by (apply trim_nonempty, Hv).
  unfold relay_call in Hup.
  split.
  - intros e He; split.
    + enter_server Hbody Hv Hkey Hkey_set.
      rewrite Hup. run_handler. rewrite Hok, He. run_handler.
      destruct (JsString.includes (message e) (js "fetch")); reflexivity.
    + enter_part000 Hbody Hs Hkey Hkey_set.
      rewrite Hup. run_handler. rewrite Hok, He. reflexivity.
  - intros data Hd Hn; split.
    + enter_server Hbody Hv Hkey Hkey_set.
      rewrite Hup. run_handler. rewrite Hok, Hd. run_handler.
      destruct (flagged_log_normal data Hn) as [v Hlog].
      rewrite Hlog. reflexivity.
    + enter_part000 Hbody Hs Hkey Hkey_set.
      rewrite Hup. run_handler. rewrite Hok, Hd. reflexivity.
Qed.

(** Neither revision bounds the wait: the call carries no signal, and
    while the service does not settle the handler does not answer. *)
Lemma relay_pending :
  valid_text s ->
  upstream w (relay_call key s) = NeverSettles ->
  Async.run (Server.analyze env body) w = (Pending, [relay_call key s]) /\
  Async.run (Part000.analyze env body) w = (Pending, [relay_call key s]).
Proof.
  intros Hv Hup.
  assert (Hs : s <> []) by (apply trim_nonempty, Hv).
  unfold relay_call in Hup.
  split.
  - enter_server Hbody Hv Hkey Hkey_set. rewrite Hup. reflexivity.
  - enter_part000 Hbody Hs Hkey Hkey_set. rewrite Hup. reflexivity.
Qed.

End RelayForwarding.

(** ** The browser's own call, and the timeout (C6) *)

Lemma analyzeToxicity_aborted (w : World) (CONFIG : Frontend.Config) (text : jsstring) :
  not_settled_by w (browser_call CONFIG text) (Frontend.REQUEST_TIMEOUT CONFIG) ->
  Async.run (Frontend.analyzeToxicity CONFIG text) w =
    (Rejected {| message := abort_message w |}, [browser_call CONFIG text]).
Proof.
  unfold not_settled_by, browser_call.
  unfold Async.run, Frontend.analyzeToxicity, Async.bind, Async.fetch.
  cbn [signal aborts_after].
  destruct (upstream w _) as [t r|t e|]; intros Hlate;
    [apply Z.ltb_ge in Hlate; rewrite Hlate ..|]; reflexivity.
Qed.

(** C6, as the code has it. The relay passes [fetch] neither a timeout nor
    an abort signal, in either revision: while the moderation service
    does not settle the call, the handler does not answer at all. Only
    the browser's [analyzeToxicity] arms a timer, of
    [CONFIG.REQUEST_TIMEOUT] milliseconds, that aborts its call: when the
    call has not settled by then, its promise is rejected with the
    platform's abort error. *)
Theorem only_browser_call_is_timed
  (env : ProcessEnv) (w : World) (body : jsval) (s key : jsstring)
  (CONFIG : Frontend.Config) (text : jsstring) :
  destructure_text body = Normal (JStr s) ->
  OPENAI_API_KEY env = Some key ->
  key <> [] ->
  valid_text s ->
  upstream w (relay_call key s) = NeverSettles ->
  not_settled_by w (browser_call CONFIG text) (Frontend.REQUEST_TIMEOUT CONFIG) ->
  signal (init (relay_call key s)) = None /\
  Async.run (Server.analyze env body) w = (Pending, [relay_call key s]) /\
  Async.run (Part000.analyze env body) w = (Pending, [relay_call key s]) /\
  signal (init (browser_call CONFIG text)) =
    Some {| aborts_after := Frontend.REQUEST_TIMEOUT CONFIG |} /\
  Async.run (Frontend.analyzeToxicity CONFIG text) w =
    (Rejected {| message := abort_message w |}, [browser_call CONFIG text]).
Proof.
  intros Hb Hk Hk' Hv Hup Hlate.
  destruct (relay_pending env w body s key Hb Hk Hk' Hv Hup) as [H1 H2].
  repeat split; try assumption.
  apply analyzeToxicity_aborted, Hlate.
Qed.

(** ** Concrete runs *)

(** C2 as stated fails: the empty string is caught by the first check and
    answered "Text is required", not "Empty text"; so is the non-string
    [false]. *)
Lemma empty_string_answered_text_is_required :
  Async.run (Server.analyze example_env (request (JStr []))) (stub_world NeverSettles) =
    (sent 400 (error_payload (js "Text is required")
                 (js "Please provide text to analyze")), []) /\
  Async.run (Server.analyze example_env (request (JStr []))) (stub_world NeverSettles) <>
    (sent 400 (error_payload (js "Empty text")
                 (js "Please provide non-empty text to analyze")), []) /\
  Async.run (Server.analyze example_env (request (JBool false))) (stub_world NeverSettles) <>
    (sent 400 (error_payload (js "Invalid input type")
                 (js "Text must be a string")), []).
Proof.
  split; [|split]; vm_compute; [reflexivity | discriminate | discriminate].
Qed.

(** C3 as stated fails: an upstream 401 is not rate limiting, yet it is
    answered with status 500, not 502. *)
Lemma upstream_401_answered_500 :
  exists res,
    Async.run (Server.analyze example_env (request (JStr (js "hello"))))
      (answers 401 (Normal (js "{}")) (Normal (JObj []))) =
      (Fulfilled res, [relay_call (js "sk-test") (js "hello")]) /\
    res_json res = error_payload (js "API authentication failed")
                     (js "Invalid or expired OpenAI API key") /\
    res_status res = 500%N /\
    res_status res <> 502%N.
Proof.
  eexists; split; [vm_compute; reflexivity|].
  split; [|split]; vm_compute; [reflexivity | reflexivity | discriminate].
Qed.

(** C6 as stated fails: the relay's call has no signal, and on a service
    that never settles the handler stays pending instead of failing with
    a timeout. *)
Lemma relay_waits_on_silent_service :
  signal (init (relay_call (js "sk-test") (js "hello"))) = None /\
  Async.run (Server.analyze example_env (request (JStr (js "hello"))))
    (stub_world NeverSettles) =
    (Pending, [relay_call (js "sk-test") (js "hello")]) /\
  forall e : JsError,
    Async.run (Server.analyze example_env (request (JStr (js "hello"))))
      (stub_world NeverSettles) <>
    (caught e, [relay_call (js "sk-test") (js "hello")]).
Proof.
  split; [reflexivity|].
  assert (E : Async.run (Server.analyze example_env (request (JStr (js "hello"))))
                (stub_world NeverSettles) =
              (Pending, [relay_call (js "sk-test") (js "hello")]))
    by (vm_compute; reflexivity).
  split; [exact E|].
  intros e; rewrite E; unfold caught, sent.
  destruct (JsString.includes (message e) (js "fetch")); discriminate.
Qed.

(** C7 as stated fails: a success status with a body that does not parse
    is answered like any unexpected exception, with the generic 500
    "Internal server error" (not a 502 upstream failure); and a body that
    parses to [null] is not passed through but answered 500 as well. *)
Lemma unparsable_body_answered_internal_error :
  Async.run (Server.analyze example_env (request (JStr (js "hello"))))
    (answers 200 (Normal (js "<html>")) (Throw invalid_json)) =
    (sent 500 (error_payload (js "Internal server error") (message invalid_json)),
     [relay_call (js "sk-test") (js "hello")]) /\
  Async.run (Part000.analyze example_env (request (JStr (js "hello"))))
    (answers 200 (Normal (js "<html>")) (Throw invalid_json)) =
    (sent 500 (Part000.error_only (js "Internal server error")),
     [relay_call (js "sk-test") (js "hello")]) /\
  Async.run (Server.analyze example_env (request (JStr (js "hello"))))
    (answers 200 (Normal (js "null")) (Normal JNull)) =
    (sent 500 (error_payload (js "Internal server error")
                 (js "Cannot read properties of null (reading 'results')")),
     [relay_call (js "sk-test") (js "hello")]).
Proof.
  split; [|split]; vm_compute; reflexivity.
Qed.

Lemma hello_valid : valid_text (js "hello").
Proof. split; vm_compute; discriminate. Defined.

Lemma test_key_set : js "sk-test" <> [].
Proof. vm_compute; discriminate. Defined.

Lemma invalid_text_rejected_before_any_call_witness :
  Async.run (Server.analyze example_env (request JNull)) (stub_world NeverSettles) =
    (sent 400 (error_payload (js "Text is required")
                 (js "Please provide text to analyze")), []) /\
  Async.run (Server.analyze example_env (request (JNum (JsNumber.of_Z 7))))
    (stub_world NeverSettles) =
    (sent 400 (error_payload (js "Invalid input type")
                 (js "Text must be a string")), []) /\
  Async.run (Server.analyze example_env (request (JStr (js "   "))))
    (stub_world NeverSettles) =
    (sent 400 (error_payload (js "Empty text")
                 (js "Please provide non-empty text to analyze")), []) /\
  Async.run (Server.analyze example_env (request (JStr (long_text))))
    (stub_world NeverSettles) =
    (sent 400 (error_payload (js "Text too long")
                 (js "Maximum 10,000 characters allowed")), []).
Proof.
  split; [|split; [|split]].
  - apply (proj1 (invalid_text_rejected_before_any_call example_env
                    (stub_world NeverSettles) (request JNull) JNull eq_refl)).
    reflexivity.
  - apply (proj1 (proj2 (invalid_text_rejected_before_any_call example_env
                    (stub_world NeverSettles) (request (JNum (JsNumber.of_Z 7)))
                    (JNum (JsNumber.of_Z 7)) eq_refl))); reflexivity.
  - apply (proj1 (proj2 (proj2 (invalid_text_rejected_before_any_call example_env
                    (stub_world NeverSettles) (request (JStr (js "   ")))
                    (JStr (js "   ")) eq_refl))) (js "   ") eq_refl).
    + vm_compute; discriminate.
    + reflexivity.
  - apply (proj2 (proj2 (proj2 (invalid_text_rejected_before_any_call example_env
                    (stub_world NeverSettles) (request (JStr (long_text)))
                    (JStr (long_text)) eq_refl))) (long_text) eq_refl).
    + vm_compute; discriminate.
    + vm_compute; reflexivity.
Defined.

Lemma missing_key_rejected_before_any_call_witness :
  Async.run (Server.analyze {| OPENAI_API_KEY := None |} (request (JStr (js "hello"))))
    (stub_world NeverSettles) =
    (sent 500 (error_payload (js "Server configuration error")
                 (js "OpenAI API key is not configured. Please contact the administrator.")),
     []) /\
  Async.run (Part000.analyze {| OPENAI_API_KEY := None |} (request (JStr (js "hello"))))
    (stub_world NeverSettles) =
    (sent 500 (Part000.error_only (js "Server configuration error (API key missing)")),
     []).
Proof.
  destruct (missing_key_rejected_before_any_call {| OPENAI_API_KEY := None |}
              (stub_world NeverSettles) (request (JStr (js "hello"))) (js "hello")
              eq_refl (or_introl eq_refl)) as [Hserver Hpart].
  split.
  - apply Hserver, hello_valid.
  - apply Hpart. vm_compute; discriminate.
Defined.

Lemma upstream_error_status_mapping_witness :
  exists res,
    Async.run (Server.analyze example_env (request (JStr (js "hello"))))
      (answers 503 (Normal (js "{}")) (Normal (JObj []))) =
      (Fulfilled res, [relay_call (js "sk-test") (js "hello")]) /\
    res = {| res_status := 502;
             res_json := error_payload (js "OpenAI API error")
                           (js "API returned status 503") |}.
Proof.
  destruct (upstream_error_status_mapping example_env
              (answers 503 (Normal (js "{}")) (Normal (JObj [])))
              (request (JStr (js "hello"))) (js "hello") (js "sk-test")
              eq_refl eq_refl test_key_set 120
              {| status := 503; read_text := Normal (js "{}");
                 read_json := Normal (JObj []) |}
              (js "{}") hello_valid eq_refl eq_refl eq_refl)
    as (res & Hrun & _ & _ & Hother).
  exists res; split; [exact Hrun|].
  apply Hother; discriminate.
Defined.

Lemma success_body_passed_through_or_caught_witness :
  Async.run (Server.analyze example_env (request (JStr (js "hello"))))
    (answers 200 (Normal (js "{}"))
       (Normal (Frontend.payload (JBool false) (Frontend.flags [(js "hate", false)])))) =
    (sent 200 (Frontend.payload (JBool false) (Frontend.flags [(js "hate", false)])),
     [relay_call (js "sk-test") (js "hello")]) /\
  Async.run (Part000.analyze example_env (request (JStr (js "hello"))))
    (answers 200 (Normal (js "<html>")) (Throw invalid_json)) =
    (sent 500 (Part000.error_only (js "Internal server error")),
     [relay_call (js "sk-test") (js "hello")]).
Proof.
  split.
  - apply (proj2 (success_body_passed_through_or_caught example_env
              (answers 200 (Normal (js "{}"))
                 (Normal (Frontend.payload (JBool false)
                            (Frontend.flags [(js "hate", false)]))))
              (request (JStr (js "hello"))) (js "hello") (js "sk-test")
              eq_refl eq_refl test_key_set 120
              {| status := 200; read_text := Normal (js "{}");
                 read_json := Normal (Frontend.payload (JBool false)
                                        (Frontend.flags [(js "hate", false)])) |}
              hello_valid eq_refl eq_refl)
             (Frontend.payload (JBool false) (Frontend.flags [(js "hate", false)]))
             eq_refl eq_refl).
  - apply (proj1 (success_body_passed_through_or_caught example_env
              (answers 200 (Normal (js "<html>")) (Throw invalid_json))
              (request (JStr (js "hello"))) (js "hello") (js "sk-test")
              eq_refl eq_refl test_key_set 120
              {| status := 200; read_text := Normal (js "<html>");
                 read_json := Throw invalid_json |}
              hello_valid eq_refl eq_refl)
             invalid_json eq_refl).
Defined.

Lemma only_browser_call_is_timed_witness :
  Async.run (Server.analyze example_env (request (JStr (js "hello")))) slow_world =
    (Pending, [relay_call (js "sk-test") (js "hello")]) /\
  Async.run (Frontend.analyzeToxicity example_config (js "hello")) slow_world =
    (Rejected {| message := js "The operation was aborted." |},
     [browser_call example_config (js "hello")]).
Proof.
  destruct (only_browser_call_is_timed example_env slow_world
              (request (JStr (js "hello"))) (js "hello") (js "sk-test")
              example_config (js "hello")
              eq_refl eq_refl test_key_set hello_valid eq_refl)
    as (_ & Hserver & _ & _ & Hbrowser).
  - vm_compute; discriminate.
  - split; [exact Hserver | exact Hbrowser].
Defined.

(** * Further properties of the relay *)

(** ** Every run of the handlers is one of the listed cases *)

Lemma key_cases (env : ProcessEnv) :
  truthy (env_value (OPENAI_API_KEY env)) = false \/
  exists key, OPENAI_API_KEY env = Some key /\ key <> [].
Proof.
  destruct (OPENAI_API_KEY env) as [[|c key]|].
  - left; reflexivity.
  - right; exists (c :: key); split; [reflexivity | discriminate].
  - left; reflexivity.
Qed.

Lemma text_cases (text : jsval) :
  truthy text = false \/
  (truthy text = true /\ is_string text = false) \/
  exists s, text = JStr s /\ s <> [].
Proof.
  destruct text as [| |b|x|s|l|fs]; cbn [truthy is_string]; auto.
  - destruct b; auto.
  - destruct (JsNumber.truthy x); auto.
  - destruct s; [auto|]. right; right; eexists; split; [reflexivity | discriminate].
Qed.

Lemma server_forwarded_run env w body s key :
  destructure_text body = Normal (JStr s) ->
  valid_text s ->
  OPENAI_API_KEY env = Some key ->
  key <> [] ->
  exists o,
    Async.run (Server.analyze env body) w = (o, [relay_call key s]) /\
    ServerForwarded w (relay_call key s) o.
Proof.
  intros Hb Hv Hk Hk'.
  enter_server Hb Hv Hk Hk'.
  fold (relay_call key s).
  destruct (upstream w (relay_call key s)) as [t r|t e|] eqn:Hup; run_handler.
  - destruct (ok r) eqn:Hok; run_handler.
    + destruct (read_json r) as [data|e] eqn:Hj; run_handler.
      * fold (logged_flag data).
        destruct (logged_flag data) as [v|e] eqn:Hlog; run_handler.
        -- eexists; split; [reflexivity|]. eapply sf_passed; eassumption.
        -- fold (caught e).
           eexists; split; [|eapply sf_log_throws; eassumption].
           unfold caught, sent.
           destruct (JsString.includes (message e) (js "fetch")); reflexivity.
      * eexists; split; [|eapply sf_unparsable; eassumption].
        unfold caught, sent.
        destruct (JsString.includes (message e) (js "fetch")); reflexivity.
    + destruct (read_text r) as [txt|e] eqn:Ht'; run_handler.
      * eexists; split; [|eapply sf_error_status; eassumption].
        unfold sent.
        destruct (N.eqb (status r) 401); [reflexivity|].
        destruct (N.eqb (status r) 429); reflexivity.
      * eexists; split; [|eapply sf_error_unread; eassumption].
        unfold caught, sent.
        destruct (JsString.includes (message e) (js "fetch")); reflexivity.
  - eexists; split; [|eapply sf_network; eassumption].
    unfold caught, sent.
    destruct (JsString.includes (message e) (js "fetch")); reflexivity.
  - eexists; split; [reflexivity | apply sf_hangs; assumption].
Qed.

Ltac enter_validation Hb :=
  unfold Async.run, Server.analyze, Async.try_catch;
  unfold Async.bind at 1; rewrite Hb; run_handler.

Lemma server_run env body w :
  ServerRun env body w (Async.run (Server.analyze env body) w).
Proof.
  destruct (destructure_text body) as [text|e] eqn:Hb.
  - destruct (text_cases text) as [Hf|[[Ht Hs]|[s [-> Hs]]]].
    + replace (Async.run (Server.analyze env body) w)
        with (sent 400 (error_payload (js "Text is required")
                          (js "Please provide text to analyze")),
              @nil OutboundCall).
      * eapply sr_missing; eassumption.
      * enter_validation Hb. rewrite Hf. reflexivity.
    + replace (Async.run (Server.analyze env body) w)
        with (sent 400 (error_payload (js "Invalid input type")
                          (js "Text must be a string")),
              @nil OutboundCall).
      * eapply sr_not_string; eassumption.
      * enter_validation Hb. rewrite Ht, Hs. reflexivity.
    + assert (Ht : truthy (JStr s) = true) by (apply key_truthy, Hs).
      destruct (JsString.trim s) as [|c tl] eqn:Htrim.
      * replace (Async.run (Server.analyze env body) w)
          with (sent 400 (error_payload (js "Empty text")
                            (js "Please provide non-empty text to analyze")),
                @nil OutboundCall).
        -- apply sr_blank with (s := s); assumption.
        -- enter_validation Hb. rewrite Ht. run_handler.
           rewrite Htrim. reflexivity.
      * assert (Hne : JsString.trim s <> []) by (rewrite Htrim; discriminate).
        destruct (JsString.length s >? 10000) eqn:Hlen.
        -- replace (Async.run (Server.analyze env body) w)
             with (sent 400 (error_payload (js "Text too long")
                               (js "Maximum 10,000 characters allowed")),
                   @nil OutboundCall).
           ++ apply sr_too_long with (s := s); [assumption | assumption |].
              rewrite Z.gtb_ltb in Hlen. apply Z.ltb_lt in Hlen. lia.
           ++ enter_validation Hb. rewrite Ht. run_handler.
              rewrite Htrim, Hlen. reflexivity.
        -- assert (Hv : valid_text s).
           { split; [exact Hne|].
             rewrite Z.gtb_ltb in Hlen. apply Z.ltb_ge in Hlen. exact Hlen. }
           destruct (key_cases env) as [Hk|[key [Hk Hk']]].
           ++ replace (Async.run (Server.analyze env body) w)
                with (sent 500 (error_payload (js "Server configuration error")
                                  (js "OpenAI API key is not configured. Please contact the administrator.")),
                      @nil OutboundCall).
              ** apply sr_no_key with (s := s); assumption.
              ** enter_validation Hb. rewrite Ht. run_handler.
                 rewrite Htrim, Hlen, Hk. reflexivity.
           ++ destruct (server_forwarded_run env w body s key Hb Hv Hk Hk')
                as [o [-> Ho]].
              eapply sr_forwarded; eassumption.
  - replace (Async.run (Server.analyze env body) w)
      with (caught e, @nil OutboundCall).
    + apply sr_no_body; assumption.
    + enter_validation Hb. unfold caught, sent.
      destruct (JsString.includes (message e) (js "fetch")); reflexivity.
Qed.

Lemma part000_run env body w :
  Part000Run env body w (Async.run (Part000.analyze env body) w).
Proof.
  destruct (destructure_text body) as [text|e] eqn:Hb.
  - destruct (text_cases text) as [Hf|[[Ht Hs]|[s [-> Hs]]]].
    + replace (Async.run (Part000.analyze env body) w)
        with (sent 400 (Part000.error_only (js "Valid text input is required")),
              @nil OutboundCall).
      * eapply pr_invalid; [eassumption | left; assumption].
      * unfold Async.run, Part000.analyze, Async.try_catch.
        unfold Async.bind at 1. rewrite Hb. run_handler. rewrite Hf. reflexivity.
    + replace (Async.run (Part000.analyze env body) w)
        with (sent 400 (Part000.error_only (js "Valid text input is required")),
              @nil OutboundCall).
      * eapply pr_invalid; [eassumption | right; assumption].
      * unfold Async.run, Part000.analyze, Async.try_catch.
        unfold Async.bind at 1. rewrite Hb. run_handler. rewrite Ht, Hs. reflexivity.
    + destruct (key_cases env) as [Hk|[key [Hk Hk']]].
      * replace (Async.run (Part000.analyze env body) w)
          with (sent 500 (Part000.error_only
                            (js "Server configuration error (API key missing)")),
                @nil OutboundCall).
        -- apply pr_no_key with (s := s); assumption.
        -- unfold Async.run, Part000.analyze, Async.try_catch.
           unfold Async.bind at 1. rewrite Hb. run_handler.
           rewrite (key_truthy _ Hs), Hk. reflexivity.
      * enter_part000 Hb Hs Hk Hk'.
        fold (relay_call key s).
        destruct (upstream w (relay_call key s)) as [t r|t e|] eqn:Hup; run_handler.
        -- destruct (ok r) eqn:Hok; run_handler.
           ++ destruct (read_json r) as [data|e] eqn:Hj; run_handler.
              ** eapply pr_passed; eassumption.
              ** eapply pr_unparsable; eassumption.
           ++ eapply pr_error_status; eassumption.
        -- eapply pr_network; eassumption.
        -- eapply pr_hangs; eassumption.
  - replace (Async.run (Part000.analyze env body) w)
      with (sent 500 (Part000.error_only (js "Internal server error")),
            @nil OutboundCall).
    + eapply pr_no_body; eassumption.
    + unfold Async.run, Part000.analyze, Async.try_catch.
      unfold Async.bind at 1. rewrite Hb. reflexivity.
Qed.

Lemma caught_status (e : JsError) :
  exists res, caught e = Fulfilled res /\
              (res_status res = 500%N \/ res_status res = 502%N).
Proof.
  unfold caught, sent.
  destruct (JsString.includes (message e) (js "fetch"));
    eexists; (split; [reflexivity|]); cbn; auto.
Qed.

Lemma logged_flag_throws data e :
  logged_flag data = Throw e -> nullish data = true.
Proof.
  intros H. destruct (nullish data) eqn:Hn; [reflexivity|].
  destruct (flagged_log_normal data Hn) as [v Hv].
  unfold logged_flag in H. rewrite Hv in H. discriminate.
Qed.

(** ** What [Server.analyze] always and never does *)

(** X1. [Server.analyze] never lets an exception escape: either it
    answers, with one of the statuses 200, 400, 429, 500 and 502, or it
    has issued its one call, without a signal, the service never settles
    it, and the request stays unanswered. *)
Theorem server_answers_or_waits (env : ProcessEnv) (body : jsval) (w : World) :
  (exists res tr,
      Async.run (Server.analyze env body) w = (Fulfilled res, tr) /\
      In (res_status res) [200; 400; 429; 500; 502]%N) \/
  (exists c,
      Async.run (Server.analyze env body) w = (Pending, [c]) /\
      upstream w c = NeverSettles /\
      signal (init c) = None).
Proof.
  pose proof (server_run env body w) as H.
  remember (Async.run (Server.analyze env body) w) as out eqn:E; clear E.
  destruct H as [e _|text _ _|text _ _ _|s _ _ _|s _ _ _|s _ _ _|s key o _ _ _ _ Hf];
    try (left; do 2 eexists; split; [reflexivity|]; cbn; tauto).
  - destruct (caught_status e) as (res & -> & [Hs|Hs]).
    all: left; do 2 eexists; split; [reflexivity|]; rewrite Hs; cbn; tauto.
  - destruct Hf as [Hup|t e _|t r e _ _ _|t r txt _ _ _|t r e _ _ _|t r d e _ _ _ _|t r d v _ _ _ _].
    + right; exists (relay_call key s).
      split; [reflexivity | split; [exact Hup | reflexivity]].
    + destruct (caught_status e) as (res & -> & [Hs|Hs]).
      all: left; do 2 eexists; split; [reflexivity|]; rewrite Hs; cbn; tauto.
    + destruct (caught_status e) as (res & -> & [Hs|Hs]).
      all: left; do 2 eexists; split; [reflexivity|]; rewrite Hs; cbn; tauto.
    + left. destruct (N.eqb (status r) 401); [|destruct (N.eqb (status r) 429)].
      all: do 2 eexists; split; [reflexivity|]; cbn; tauto.
    + destruct (caught_status e) as (res & -> & [Hs|Hs]).
      all: left; do 2 eexists; split; [reflexivity|]; rewrite Hs; cbn; tauto.
    + destruct (caught_status e) as (res & -> & [Hs|Hs]).
      all: left; do 2 eexists; split; [reflexivity|]; rewrite Hs; cbn; tauto.
    + left; do 2 eexists; split; [reflexivity|]; cbn; tauto.
Qed.

(** X2. [Server.analyze] issues at most one outbound call, and only for a
    request whose text is a string that passes the four checks while a
    non-empty API key is configured; the call is then the POST to the
    moderation URL carrying that text, unchanged, and that key. *)
Theorem server_calls_only_for_valid_request
  (env : ProcessEnv) (body : jsval) (w : World) (c : OutboundCall) :
  In c (snd (Async.run (Server.analyze env body) w)) ->
  exists s key,
    destructure_text body = Normal (JStr s) /\
    valid_text s /\
    OPENAI_API_KEY env = Some key /\ key <> [] /\
    snd (Async.run (Server.analyze env body) w) = [c] /\
    url c = js "https://api.openai.com/v1/moderations" /\
    method (init c) = js "POST" /\
    lookup (js "Authorization")
      (map (fun h => (fst h, JStr (snd h))) (headers (init c))) =
      Some (JStr (js "Bearer " ++ key)) /\
    body_json (init c) =
      JObj [ (js "model", JStr (js "omni-moderation-latest"));
             (js "input", JStr s) ].
Proof.
  pose proof (server_run env body w) as H.
  remember (Async.run (Server.analyze env body) w) as out eqn:E; clear E.
  destruct H as [e _|text _ _|text _ _ _|s _ _ _|s _ _ _|s _ _ _|s key o Hb Hv Hk Hk' _];
    cbn [snd In]; try tauto.
  intros [<-|[]].
  exists s, key. repeat split; try assumption; try apply Hv.
Qed.

Lemma server_calls_only_for_valid_request_witness :
  exists s key,
    destructure_text (request (JStr (js "hello"))) = Normal (JStr s) /\
    valid_text s /\ OPENAI_API_KEY example_env = Some key.
Proof.
  destruct (server_calls_only_for_valid_request example_env
              (request (JStr (js "hello"))) (stub_world NeverSettles)
              (relay_call (js "sk-test") (js "hello")))
    as (s & key & Hb & Hv & Hk & _).
  - left; reflexivity.
  - exists s, key; repeat split; try assumption; apply Hv.
Defined.

(** X3. A 200 answer of [Server.analyze] is always a relayed one: the
    service resolved the call with a success status and the answer's
    body is exactly the value its body parsed to. *)
Theorem server_200_is_upstream_body
  (env : ProcessEnv) (body : jsval) (w : World)
  (res : HttpResponse) (tr : list OutboundCall) :
  Async.run (Server.analyze env body) w = (Fulfilled res, tr) ->
  res_status res = 200%N ->
  exists c t r,
    tr = [c] /\
    upstream w c = Resolves t r /\
    ok r = true /\
    read_json r = Normal (res_json res).
Proof.
  pose proof (server_run env body w) as H.
  remember (Async.run (Server.analyze env body) w) as out eqn:E; clear E.
  assert (Hc : forall e, caught e = Fulfilled res -> res_status res = 200%N -> False).
  { intros e He Hs. destruct (caught_status e) as (res' & He' & Hs').
    rewrite He in He'. injection He' as <-. rewrite Hs in Hs'.
    destruct Hs'; discriminate. }
  destruct H as [e _|text _ _|text _ _ _|s _ _ _|s _ _ _|s _ _ _|s key o _ _ _ _ Hf];
    intros Hrun Hs; injection Hrun as Ho <-;
    try (subst res; discriminate Hs);
    try (exfalso; eapply Hc; eassumption).
  destruct Hf as [Hup|t e _|t r e _ _ _|t r txt _ _ _|t r e _ _ _|t r d e _ _ _ _|t r d v Hup Hok Hj _];
    try discriminate Ho;
    try (exfalso; eapply Hc; eassumption).
  - exfalso. destruct (N.eqb (status r) 401); [|destruct (N.eqb (status r) 429)];
      injection Ho as <-; discriminate Hs.
  - injection Ho as <-. exists (relay_call key s), t, r. auto.
Qed.

Lemma server_200_is_upstream_body_witness :
  exists c t r,
    [relay_call (js "sk-test") (js "hello")] = [c] /\
    upstream (answers 200 (Normal (js "{}")) (Normal (JObj []))) c = Resolves t r /\
    ok r = true /\
    read_json r = Normal (JObj []).
Proof.
  apply (server_200_is_upstream_body example_env (request (JStr (js "hello")))
           (answers 200 (Normal (js "{}")) (Normal (JObj [])))
           {| res_status := 200; res_json := JObj [] |}
           [relay_call (js "sk-test") (js "hello")]).
  - vm_compute; reflexivity.
  - reflexivity.
Defined.

(** X4. When the call fails on the network, or the service answers a
    non-success status whose body cannot be read, the catch block
    answers: 502 "Failed to connect to OpenAI" if the error message
    contains "fetch", otherwise 500 "Internal server error" with the
    message as details. The status mapping (401, 429) is then skipped. *)
Theorem server_failure_after_call
  (env : ProcessEnv) (w : World) (body : jsval) (s key : jsstring) (e : JsError) :
  destructure_text body = Normal (JStr s) ->
  valid_text s ->
  OPENAI_API_KEY env = Some key ->
  key <> [] ->
  (exists t, upstream w (relay_call key s) = Rejects t e) \/
  (exists t r, upstream w (relay_call key s) = Resolves t r /\
               ok r = false /\ read_text r = Throw e) ->
  Async.run (Server.analyze env body) w =
    (if JsString.includes (message e) (js "fetch") then
       sent 502 (error_payload (js "Failed to connect to OpenAI")
                   (js "Could not reach OpenAI API. Please try again."))
     else
       sent 500 (error_payload (js "Internal server error") (message e)),
     [relay_call key s]).
Proof.
  intros Hb Hv Hk Hk' Hup.
  enter_server Hb Hv Hk Hk'. fold (relay_call key s).
  destruct Hup as [[t Hup]|(t & r & Hup & Hok & Hread)]; rewrite Hup; run_handler.
  - destruct (JsString.includes (message e) (js "fetch")); reflexivity.
  - rewrite Hok, Hread. run_handler.
    destruct (JsString.includes (message e) (js "fetch")); reflexivity.
Qed.

Lemma server_failure_after_call_witness :
  Async.run (Server.analyze example_env (request (JStr (js "hello"))))
    (stub_world (Rejects 30 dns_failure)) =
    (sent 500 (error_payload (js "Internal server error") (message dns_failure)),
     [relay_call (js "sk-test") (js "hello")]).
Proof.
  exact (server_failure_after_call example_env (stub_world (Rejects 30 dns_failure))
           (request (JStr (js "hello"))) (js "hello") (js "sk-test") dns_failure
           eq_refl hello_valid eq_refl test_key_set
           (or_introl (ex_intro _ 30 eq_refl))).
Defined.

(** X5. A request without a body object ([req.body] undefined or null)
    makes the destructuring throw; the catch block answers 500 "Internal
    server error" and no call is made. *)
Theorem server_missing_body (env : ProcessEnv) (w : World) (body : jsval) :
  nullish body = true ->
  exists details,
    Async.run (Server.analyze env body) w =
      (sent 500 (error_payload (js "Internal server error") details), []) /\
    destructure_text body = Throw {| message := details |}.
Proof.
  intros Hn.
  destruct body; try discriminate Hn; eexists; split; reflexivity.
Qed.

Lemma server_missing_body_witness :
  exists details,
    Async.run (Server.analyze example_env JUndefined) (stub_world NeverSettles) =
      (sent 500 (error_payload (js "Internal server error") details), []).
Proof.
  destruct (server_missing_body example_env (stub_world NeverSettles) JUndefined eq_refl)
    as (details & Hrun & _).
  exists details; exact Hrun.
Defined.

(** ** The earlier revision *)

(** X6. [Part000.analyze] never lets an exception escape either: it
    answers with one of the statuses 200, 400, 500 and 502 (never 429),
    or waits for ever on its one call. *)
Theorem part000_answers_or_waits (env : ProcessEnv) (body : jsval) (w : World) :
  (exists res tr,
      Async.run (Part000.analyze env body) w = (Fulfilled res, tr) /\
      In (res_status res) [200; 400; 500; 502]%N) \/
  (exists c,
      Async.run (Part000.analyze env body) w = (Pending, [c]) /\
      upstream w c = NeverSettles /\
      signal (init c) = None).
Proof.
  pose proof (part000_run env body w) as H.
  remember (Async.run (Part000.analyze env body) w) as out eqn:E; clear E.
  destruct H;
    try (left; do 2 eexists; split; [reflexivity|]; cbn; tauto).
  right; exists (relay_call key s).
  split; [reflexivity | split; [assumption | reflexivity]].
Qed.

(** X7. The earlier revision has neither the trim check nor the length
    check: a non-empty string that is blank or longer than 10,000 code
    units is forwarded to the service as it is, where [Server.analyze]
    answers 400 without any call. *)
Theorem part000_forwards_blank_and_long_text
  (env : ProcessEnv) (w : World) (body : jsval) (s key : jsstring) :
  destructure_text body = Normal (JStr s) ->
  s <> [] ->
  OPENAI_API_KEY env = Some key ->
  key <> [] ->
  JsString.trim s = [] \/ JsString.length s > 10000 ->
  snd (Async.run (Part000.analyze env body) w) = [relay_call key s] /\
  exists res,
    Async.run (Server.analyze env body) w = (Fulfilled res, []) /\
    res_status res = 400%N.
Proof.
  intros Hb Hs Hk Hk' Hbad. split.
  - enter_part000 Hb Hs Hk Hk'. fold (relay_call key s).
    destruct (upstream w (relay_call key s)) as [t r|t e|]; run_handler;
      [|reflexivity|reflexivity].
    destruct (ok r); run_handler; [|reflexivity].
    destruct (read_json r); reflexivity.
  - pose proof (server_run env body w) as H.
    remember (Async.run (Server.analyze env body) w) as out eqn:E; clear E.
    destruct H as [e Hb'|text Hb' Hf|text Hb' _ Hns|s' Hb' _ _|s' Hb' _ _
                  |s' Hb' Hv _|s' key' o Hb' Hv _ _ _];
      rewrite Hb in Hb'; try discriminate Hb'; injection Hb' as <-;
      try (eexists; split; reflexivity).
    + exfalso. destruct Hv as [Ht Hl]. destruct Hbad; [contradiction | lia].
    + exfalso. destruct Hv as [Ht Hl]. destruct Hbad; [contradiction | lia].
Qed.

Lemma part000_forwards_blank_and_long_text_witness :
  snd (Async.run (Part000.analyze example_env (request (JStr (js "   "))))
         (stub_world NeverSettles)) = [relay_call (js "sk-test") (js "   ")] /\
  exists res,
    Async.run (Server.analyze example_env (request (JStr (js "   "))))
      (stub_world NeverSettles) = (Fulfilled res, []) /\
    res_status res = 400%N.
Proof.
  apply (part000_forwards_blank_and_long_text example_env (stub_world NeverSettles)
           (request (JStr (js "   "))) (js "   ") (js "sk-test")
           eq_refl).
  - vm_compute; discriminate.
  - reflexivity.
  - exact test_key_set.
  - left; reflexivity.
Defined.

(** X8. The earlier revision answers every non-success status of the
    service, 401 and 429 included, with 502 "OpenAI moderation service
    failed", and does not read the error body. *)
Theorem part000_error_status_is_502
  (env : ProcessEnv) (w : World) (body : jsval) (s key : jsstring)
  (t : Z) (r : Response) :
  destructure_text body = Normal (JStr s) ->
  s <> [] ->
  OPENAI_API_KEY env = Some key ->
  key <> [] ->
  upstream w (relay_call key s) = Resolves t r ->
  ok r = false ->
  Async.run (Part000.analyze env body) w =
    (sent 502 (Part000.error_only (js "OpenAI moderation service failed")),
     [relay_call key s]).
Proof.
  intros Hb Hs Hk Hk' Hup Hok.
  enter_part000 Hb Hs Hk Hk'. fold (relay_call key s).
  rewrite Hup. run_handler. rewrite Hok. reflexivity.
Qed.

Lemma part000_error_status_is_502_witness :
  Async.run (Part000.analyze example_env (request (JStr (js "hello"))))
    (answers 429 (Throw invalid_json) (Throw invalid_json)) =
    (sent 502 (Part000.error_only (js "OpenAI moderation service failed")),
     [relay_call (js "sk-test") (js "hello")]).
Proof.
  apply (part000_error_status_is_502 example_env _ (request (JStr (js "hello")))
           (js "hello") (js "sk-test") 120
           {| status := 429; read_text := Throw invalid_json;
              read_json := Throw invalid_json |}
           eq_refl).
  - vm_compute; discriminate.
  - reflexivity.
  - exact test_key_set.
  - reflexivity.
  - reflexivity.
Defined.

(** X9. The later revision only adds checks: whenever [Server.analyze]
    issues a call, the earlier revision issues the same call on the same
    request, and whenever [Server.analyze] answers 200 the earlier
    revision gives the same answer. *)
Theorem server_run_agrees_with_part000
  (env : ProcessEnv) (body : jsval) (w : World) (c : OutboundCall) :
  snd (Async.run (Server.analyze env body) w) = [c] ->
  snd (Async.run (Part000.analyze env body) w) = [c] /\
  forall data,
    fst (Async.run (Server.analyze env body) w) = sent 200 data ->
    fst (Async.run (Part000.analyze env body) w) = sent 200 data.
Proof.
  pose proof (server_run env body w) as H.
  remember (Async.run (Server.analyze env body) w) as out eqn:E; clear E.
  assert (Hc : forall e data, caught e <> sent 200 data).
  { intros e data He. destruct (caught_status e) as (res & He' & Hs).
    rewrite He in He'. injection He' as <-. destruct Hs; discriminate. }
  destruct H as [e _|text _ _|text _ _ _|s _ _ _|s _ _ _|s _ _ _|s key o Hb Hv Hk Hk' Hf];
    cbn [snd fst]; try discriminate.
  intros Hc'; injection Hc' as <-.
  assert (Hs : s <> []) by (apply trim_nonempty, Hv).
  assert (Hrun : forall o',
             Async.run (Part000.analyze env body) w = (o', [relay_call key s]) ->
             snd (Async.run (Part000.analyze env body) w) = [relay_call key s])
    by (intros o' ->; reflexivity).
  destruct Hf as [Hup|t e Hup|t r e Hup Hok _|t r txt Hup Hok _|t r e Hup Hok Hj
                 |t r d e Hup Hok Hj _|t r d v Hup Hok Hj _];
    unfold relay_call in Hup.
  - split; [|discriminate].
    enter_part000 Hb Hs Hk Hk'. rewrite Hup. reflexivity.
  - split; [|intros data He; destruct (Hc _ _ He)].
    enter_part000 Hb Hs Hk Hk'. rewrite Hup. reflexivity.
  - split; [|intros data He; destruct (Hc _ _ He)].
    enter_part000 Hb Hs Hk Hk'. rewrite Hup. run_handler. rewrite Hok. reflexivity.
  - split.
    + enter_part000 Hb Hs Hk Hk'. rewrite Hup. run_handler. rewrite Hok. reflexivity.
    + intros data.
      destruct (N.eqb (status r) 401); [|destruct (N.eqb (status r) 429)]; discriminate.
  - split; [|intros data He; destruct (Hc _ _ He)].
    enter_part000 Hb Hs Hk Hk'. rewrite Hup. run_handler. rewrite Hok, Hj. reflexivity.
  - split; [|intros data He; destruct (Hc _ _ He)].
    enter_part000 Hb Hs Hk Hk'. rewrite Hup. run_handler. rewrite Hok, Hj. reflexivity.
  - split.
    + enter_part000 Hb Hs Hk Hk'. rewrite Hup. run_handler. rewrite Hok, Hj. reflexivity.
    + intros data He. injection He as <-.
      enter_part000 Hb Hs Hk Hk'. rewrite Hup. run_handler. rewrite Hok, Hj. reflexivity.
Qed.

Lemma server_run_agrees_with_part000_witness :
  snd (Async.run (Part000.analyze example_env (request (JStr (js "hello"))))
         (answers 200 (Normal (js "{}")) (Normal (JObj [])))) =
    [relay_call (js "sk-test") (js "hello")] /\
  fst (Async.run (Part000.analyze example_env (request (JStr (js "hello"))))
         (answers 200 (Normal (js "{}")) (Normal (JObj [])))) = sent 200 (JObj []).
Proof.
  destruct (server_run_agrees_with_part000 example_env (request (JStr (js "hello")))
              (answers 200 (Normal (js "{}")) (Normal (JObj [])))
              (relay_call (js "sk-test") (js "hello")))
    as [Hcall Hsame].
  - vm_compute; reflexivity.
  - split; [exact Hcall | apply Hsame; vm_compute; reflexivity].
Defined.

(** ** The health route *)

(** X10. The health route answers 200 and its [apiKeyConfigured] flag
    tells what a valid request will meet: it is true exactly when
    [Server.analyze] forwards such a request to the service, and false
    exactly when it answers the 500 configuration error. *)
Theorem health_reports_key_check
  (env : ProcessEnv) (now : jsstring) (body : jsval) (w : World) (s : jsstring) :
  destructure_text body = Normal (JStr s) ->
  valid_text s ->
  res_status (Server.health env now) = 200%N /\
  (get_prop (res_json (Server.health env now)) (js "apiKeyConfigured")
     = Normal (JBool true) <->
   exists key, snd (Async.run (Server.analyze env body) w) = [relay_call key s]) /\
  (get_prop (res_json (Server.health env now)) (js "apiKeyConfigured")
     = Normal (JBool false) <->
   Async.run (Server.analyze env body) w =
     (sent 500 (error_payload (js "Server configuration error")
                  (js "OpenAI API key is not configured. Please contact the administrator.")),
      [])).
Proof.
  intros Hb Hv.
  split; [reflexivity|].
  replace (get_prop (res_json (Server.health env now)) (js "apiKeyConfigured"))
    with (Normal (JBool (negb (negb (truthy (env_value (OPENAI_API_KEY env)))))))
    by reflexivity.
  rewrite negb_involutive.
  destruct (key_cases env) as [Hk|[key [Hk Hk']]].
  - assert (Hrun : Async.run (Server.analyze env body) w =
                   (sent 500 (error_payload (js "Server configuration error")
                      (js "OpenAI API key is not configured. Please contact the administrator.")),
                    [])).
    { destruct (valid_text_checks s Hv) as (Ht & Hz & Hl).
      enter_validation Hb. rewrite Ht. run_handler. rewrite Hz, Hl, Hk. reflexivity. }
    rewrite Hk, Hrun. split; split; try discriminate; auto.
    intros [key Hkey]; discriminate Hkey.
  - destruct (server_forwarded_run env w body s key Hb Hv Hk Hk') as [o [Hrun _]].
    rewrite Hk, Hrun. cbn [env_value]. rewrite (key_truthy _ Hk').
    split; split; try discriminate; auto.
    intros _; exists key; reflexivity.
Qed.

Lemma health_reports_key_check_witness :
  get_prop (res_json (Server.health {| OPENAI_API_KEY := None |} (js "2024-01-01T00:00:00.000Z")))
    (js "apiKeyConfigured") = Normal (JBool false).
Proof.
  apply (proj2 (proj2 (health_reports_key_check {| OPENAI_API_KEY := None |}
                  (js "2024-01-01T00:00:00.000Z") (request (JStr (js "hello")))
                  (stub_world NeverSettles) (js "hello") eq_refl hello_valid))).
  vm_compute; reflexivity.
Defined.

(** * Further properties of the browser script *)

(** ** [processApiResponse] on any value *)

Section SummaryOfAnyValue.

Import Frontend.

Lemma get_prop_fields_of v k :
  nullish v = false -> get_prop v k = get_prop (JObj (fields_of v)) k.
Proof. destruct v; intros H; try discriminate H; reflexivity. Qed.

Lemma for_in_fields_of v ks st :
  nullish v = false ->
  for_in (loop_body v) ks st = for_in (loop_body (JObj (fields_of v))) ks st.
Proof.
  intros Hn. revert st; induction ks as [|[key lbl] ks IH]; intros st; [reflexivity|].
  cbn [for_in]. unfold loop_body at 1 3. rewrite (get_prop_fields_of v key Hn).
  destruct (get_prop (JObj (fields_of v)) key) as [x|e]; cbn [bind]; [|reflexivity].
  destruct (negb (is_undefined x)); apply IH.
Qed.

Lemma get_prop_normal v k x : get_prop v k = Normal x -> nullish v = false.
Proof. destruct v; cbn; intros H; try discriminate H; reflexivity. Qed.

Lemma get_first_normal v x : get_first v = Normal x -> nullish v = false.
Proof. destruct v; cbn; intros H; try discriminate H; reflexivity. Qed.

Lemma get_prop_nullish v k : nullish v = true -> exists e, get_prop v k = Throw e.
Proof. destruct v; intros H; try discriminate H; eexists; reflexivity. Qed.

Lemma get_prop_total v k : nullish v = false -> exists x, get_prop v k = Normal x.
Proof. destruct v; intros H; try discriminate H; eexists; reflexivity. Qed.

(** Whenever [processApiResponse] returns, it returns what it returns on
    the payload made of the flag and the category fields it read. *)
Lemma processApiResponse_reads data s :
  processApiResponse data = Normal s ->
  exists results result categories flagged,
    get_prop data (js "results") = Normal results /\
    get_first results = Normal result /\
    get_prop result (js "categories") = Normal categories /\
    nullish categories = false /\
    get_prop result (js "flagged") = Normal flagged /\
    processApiResponse (payload flagged (fields_of categories)) = Normal s.
Proof.
  unfold processApiResponse at 1.
  destruct (get_prop data (js "results")) as [results|] eqn:E1; cbn [bind]; [|discriminate].
  destruct (get_first results) as [result|] eqn:E2; cbn [bind]; [|discriminate].
  destruct (get_prop result (js "categories")) as [cs|] eqn:E3; cbn [bind]; [|discriminate].
  destruct (get_prop result (js "flagged")) as [fl|] eqn:E4; cbn [bind]; [|discriminate].
  destruct (nullish cs) eqn:Hn.
  - destruct cs; try discriminate Hn; cbn; discriminate.
  - rewrite (for_in_fields_of cs _ _ Hn), for_in_object. cbn [bind].
    intros H; injection H as <-.
    exists results, result, cs, fl. repeat split; try assumption.
    rewrite processApiResponse_payload. reflexivity.
Qed.

(** X11. Whatever value [processApiResponse] is given, if it returns then
    either it emitted no category and [overall] is NaN, or [overall] is
    an integer between 5 and 85, the one nearest to the mean of the
    scores it emitted (ties upwards). The clamp at 100 is never
    reached. *)
Theorem overall_is_NaN_or_rounded_mean (data : jsval) (s : AnalysisSummary) :
  processApiResponse data = Normal s ->
  (categories s = [] /\ overall s = JsNumber.NaN) \/
  (categories s <> [] /\
   exists n,
     overall s = JsNumber.of_Z n /\
     5 <= n <= 85 /\
     (2 * n - 1) * Z.of_nat (List.length (categories s))
       <= 2 * Zsum (map score (categories s))
       < (2 * n + 1) * Z.of_nat (List.length (categories s))).
Proof.
  intros H.
  destruct (processApiResponse_reads data s H)
    as (_ & _ & cs & fl & _ & _ & _ & _ & _ & Hs).
  rewrite processApiResponse_payload in Hs. injection Hs as <-.
  cbn [categories overall].
  set (cats := fields_of cs).
  destruct (emitted cats) as [|e es] eqn:Hem.
  - left. split; [reflexivity|].
    unfold mean_of. rewrite Hem.
    destruct (truthy fl); vm_compute; reflexivity.
  - right. split; [discriminate|].
    assert (Hne : emitted cats <> []) by (rewrite Hem; discriminate).
    destruct (overall_payload fl cats Hne) as [Hov Hc].
    rewrite Hem in Hov, Hc.
    pose proof (Zsum_assigned cats (e :: es)) as Ht.
    pose proof (filter_length_le (hit cats) (e :: es)) as Hk.
    set (t := Zsum (map (assigned cats) (e :: es))) in *.
    set (c := Z.of_nat (List.length (e :: es))) in *.
    exists ((2 * t + c) / (2 * c)).
    split; [exact Hov|].
    assert (Hsc : map score (map (card cats) (e :: es)) = map (assigned cats) (e :: es))
      by (rewrite map_map; reflexivity).
    rewrite Hsc, length_map. fold t c.
    pose proof (round_half_up_nearest t c _ Hc eq_refl) as Hr.
    split; [|exact Hr].
    assert (5 * c <= t <= 85 * c) by lia.
    nia.
Qed.

Lemma overall_is_NaN_or_rounded_mean_witness :
  exists n,
    JsNumber.of_Z 45 = JsNumber.of_Z n /\ 5 <= n <= 85.
Proof.
  destruct (overall_is_NaN_or_rounded_mean
              (payload (JBool true) (flags [(js "violence", false); (js "hate", true)]))
              {| overall := JsNumber.of_Z 45;
                 categories := [ {| name := js "Hate"; score := 85;
                                    raw := JsNumber.div 85 100 |};
                                 {| name := js "Violence"; score := 5;
                                    raw := JsNumber.div 5 100 |} ] |})
    as [[Hnil _]|[_ (n & Hov & Hn & _)]].
  - vm_compute; reflexivity.
  - discriminate Hnil.
  - exists n; split; [exact Hov | exact Hn].
Defined.

(** X12. [processApiResponse] throws exactly when [data], [data.results],
    [data.results[0]] or its [categories] is null or undefined: it
    returns a summary if and only if those three reads succeed and give
    a [categories] value that is neither. *)
Theorem processApiResponse_returns_iff (data : jsval) :
  (exists s, processApiResponse data = Normal s) <->
  (exists results result categories,
      get_prop data (js "results") = Normal results /\
      get_first results = Normal result /\
      get_prop result (js "categories") = Normal categories /\
      nullish categories = false).
Proof.
  split.
  - intros [s H].
    destruct (processApiResponse_reads data s H)
      as (results & result & cs & fl & H1 & H2 & H3 & H4 & _).
    exists results, result, cs. auto.
  - intros (results & result & cs & H1 & H2 & H3 & H4).
    destruct (get_prop_total result (js "flagged") (get_prop_normal _ _ _ H3))
      as [fl H5].
    unfold processApiResponse.
    rewrite H1; cbn [bind]. rewrite H2; cbn [bind].
    rewrite H3; cbn [bind]. rewrite H5; cbn [bind].
    rewrite (for_in_fields_of cs _ _ H4), for_in_object. cbn [bind].
    eexists; reflexivity.
Qed.

Lemma filter_all {A} (f : A -> bool) (l : list A) :
  (forall x, In x l -> f x = true) -> filter f l = l.
Proof.
  induction l as [|a l IH]; intros H; [reflexivity|].
  cbn [filter]. rewrite (H a (or_introl eq_refl)). f_equal.
  apply IH. intros x Hx. apply H. right; exact Hx.
Qed.

(** X13. When the payload defines all seven categories, the verdict
    depends only on how many of them are flagged: at most two flagged
    categories are banded safe, three to five warning, and only six or
    seven danger. *)
Theorem verdict_thresholds_with_seven_categories
  (flagged : jsval) (cats : list (jsstring * jsval)) :
  (forall e, In e categoryMap -> present cats e = true) ->
  exists s,
    processApiResponse (payload flagged cats) = Normal s /\
    List.length (categories s) = 7%nat /\
    iconClass (displayVerdict (overall s)) =
      if (List.length (filter (hit cats) categoryMap) <=? 2)%nat then safe
      else if (List.length (filter (hit cats) categoryMap) <=? 5)%nat then warning
      else danger.
Proof.
  intros Hall.
  assert (Hem : emitted cats = categoryMap) by (apply filter_all, Hall).
  assert (Hne : emitted cats <> []) by (rewrite Hem; discriminate).
  destruct (overall_payload flagged cats Hne) as [Hov _].
  rewrite processApiResponse_payload.
  eexists; split; [reflexivity|].
  cbn [categories overall].
  split; [rewrite length_map, Hem; reflexivity|].
  match goal with
  | |- context [displayVerdict ?x] =>
      replace x with
        (JsNumber.of_Z
           ((2 * Zsum (map (assigned cats) (emitted cats)) +
             Z.of_nat (List.length (emitted cats))) /
            (2 * Z.of_nat (List.length (emitted cats)))))
        by (symmetry; exact Hov)
  end.
  rewrite Hem, (Zsum_assigned cats categoryMap).
  pose proof (filter_length_le (hit cats) categoryMap) as Hk.
  change (List.length categoryMap) with 7%nat in *.
  destruct (List.length (filter (hit cats) categoryMap))
    as [|[|[|[|[|[|[|[|k]]]]]]]]; try lia; vm_compute; reflexivity.
Qed.

Lemma verdict_thresholds_with_seven_categories_witness :
  exists s,
    processApiResponse
      (payload (JBool true)
         (flags [ (js "hate", true); (js "harassment", true);
                  (js "self-harm", false); (js "sexual", false);
                  (js "violence", true); (js "hate/threatening", false);
                  (js "harassment/threatening", false) ])) = Normal s /\
    iconClass (displayVerdict (overall s)) = warning.
Proof.
  destruct (verdict_thresholds_with_seven_categories (JBool true)
              (flags [ (js "hate", true); (js "harassment", true);
                       (js "self-harm", false); (js "sexual", false);
                       (js "violence", true); (js "hate/threatening", false);
                       (js "harassment/threatening", false) ]))
    as (s & Hs & _ & Hband).
  - intros e He. unfold categoryMap in He. cbn [In] in He.
    repeat (destruct He as [<-|He]; [reflexivity|]). contradiction.
  - exists s; split; [exact Hs | exact Hband].
Defined.

End SummaryOfAnyValue.

(** ** The analyze button *)

Section AnalyzeClick.

Import Frontend.

Variable CONFIG : Config.
Variable w : World.

Lemma trimmed_truthy (s : jsstring) :
  negb (truthy (JStr (JsString.trim s))) =
  match JsString.trim s with [] => true | _ => false end.
Proof. cbn [truthy]. destruct (JsString.trim s); reflexivity. Qed.

(** X14. A click is stopped before any request is sent, and changes
    nothing on the page but for one toast, when the trimmed text is
    empty, when it is longer than [CONFIG.MAX_INPUT_LENGTH], when the
    browser is offline, or when the configured key is empty or does not
    start with "sk-"; the checks run in that order. *)
Theorem blocked_click_sends_nothing (p : Page) :
  let text := JsString.trim (textInput_value p) in
  (text = [] ->
   Async.run (handleAnalyzeClick CONFIG p) w =
     (Fulfilled (showToast (js "Please enter text to analyze") (js "warning") p), [])) /\
  (text <> [] -> JsString.length text > MAX_INPUT_LENGTH CONFIG ->
   Async.run (handleAnalyzeClick CONFIG p) w =
     (Fulfilled (showToast (js "Text exceeds maximum length of "
                            ++ int_to_string (MAX_INPUT_LENGTH CONFIG)
                            ++ js " characters") (js "error") p), [])) /\
  (text <> [] -> JsString.length text <= MAX_INPUT_LENGTH CONFIG ->
   isOnline (app p) = false ->
   Async.run (handleAnalyzeClick CONFIG p) w =
     (Fulfilled (showToast (js "No internet connection. Please check your network.")
                   (js "error") p), [])) /\
  (text <> [] -> JsString.length text <= MAX_INPUT_LENGTH CONFIG ->
   isOnline (app p) = true ->
   OPENAI_API_KEY CONFIG = [] \/
   JsString.starts_with (js "sk-") (OPENAI_API_KEY CONFIG) = false ->
   Async.run (handleAnalyzeClick CONFIG p) w =
     (Fulfilled (showToast (js "OpenAI API key not configured") (js "error") p), [])).
Proof.
  intros text; subst text. unfold Async.run, handleAnalyzeClick. cbv zeta.
  rewrite trimmed_truthy.
  destruct (JsString.trim (textInput_value p)) as [|c t].
  { repeat split; try congruence. }
  assert (Hle : JsString.length (c :: t) <= MAX_INPUT_LENGTH CONFIG ->
                (JsString.length (c :: t) >? MAX_INPUT_LENGTH CONFIG) = false)
    by (intros H; rewrite Z.gtb_ltb; apply Z.ltb_ge; lia).
  repeat split.
  - discriminate.
  - intros _ Hlen.
    assert ((JsString.length (c :: t) >? MAX_INPUT_LENGTH CONFIG) = true) as ->
      by (rewrite Z.gtb_ltb; apply Z.ltb_lt; lia).
    reflexivity.
  - intros _ Hlen Hoff. rewrite (Hle Hlen), Hoff. reflexivity.
  - intros _ Hlen Hon Hkey. rewrite (Hle Hlen), Hon.
    assert (key_not_configured CONFIG = true) as ->.
    { unfold key_not_configured. destruct Hkey as [-> | ->]; [reflexivity|].
      apply orb_true_r. }
    reflexivity.
Qed.

(** What [analyzeToxicity] settles to: it never stays pending, and it
    issues exactly its one call. *)
Lemma analyzeToxicity_settles (text : jsstring) :
  exists o,
    Async.run (analyzeToxicity CONFIG text) w = (o, [browser_call CONFIG text]) /\
    o <> Pending.
Proof.
  unfold Async.run, analyzeToxicity, Async.bind, Async.fetch.
  cbn [signal aborts_after]. fold (browser_call CONFIG text).
  destruct (upstream w (browser_call CONFIG text)) as [t r|t e|].
  - destruct (t <? REQUEST_TIMEOUT CONFIG).
    + destruct (ok r); cbn [negb].
      * destruct (read_json r) as [data|e]; cbn [Async.lift Async.ret Async.throw].
        -- destruct (processApiResponse data);
             (eexists; split; [reflexivity | discriminate]).
        -- eexists; split; [reflexivity | discriminate].
      * eexists; split; [reflexivity | discriminate].
    + eexists; split; [reflexivity | discriminate].
  - destruct (t <? REQUEST_TIMEOUT CONFIG);
      (eexists; split; [reflexivity | discriminate]).
  - eexists; split; [reflexivity | discriminate].
Qed.

Lemma analyzeToxicity_in_time (text : jsstring) t r :
  upstream w (browser_call CONFIG text) = Resolves t r ->
  t < REQUEST_TIMEOUT CONFIG ->
  Async.run (analyzeToxicity CONFIG text) w =
    (if ok r then
       match read_json r with
       | Normal data =>
           match processApiResponse data with
           | Normal s => Fulfilled s
           | Throw e => Rejected e
           end
       | Throw e => Rejected e
       end
     else Rejected {| message := js "OpenAI Moderation API error" |},
     [browser_call CONFIG text]).
Proof.
  intros Hup Ht. unfold browser_call in Hup.
  unfold Async.run, analyzeToxicity, Async.bind, Async.fetch.
  cbn [signal aborts_after]. rewrite Hup.
  apply Z.ltb_lt in Ht. rewrite Ht.
  destruct (ok r); cbn [negb]; [|reflexivity].
  destruct (read_json r) as [data|e]; cbn [Async.lift Async.ret Async.throw];
    [|reflexivity].
  destruct (processApiResponse data); reflexivity.
Qed.

(** A click that passes the four checks. *)
Lemma passing_click (p : Page) :
  JsString.trim (textInput_value p) <> [] ->
  JsString.length (JsString.trim (textInput_value p)) <= MAX_INPUT_LENGTH CONFIG ->
  isOnline (app p) = true ->
  key_not_configured CONFIG = false ->
  Async.run (handleAnalyzeClick CONFIG p) w =
    let p1 := showSkeletonLoader
                (showPage (js "results") (setAnalyzingState true p)) in
    match Async.run (analyzeToxicity CONFIG (JsString.trim (textInput_value p))) w with
    | (Fulfilled results, tr) =>
        (Fulfilled
           (setAnalyzingState false
              (displayResults results
                 (set_app {| currentPage := currentPage (app p1);
                             isAnalyzing := isAnalyzing (app p1);
                             lastAnalysisResults := Some results;
                             isOnline := isOnline (app p1) |} p1))), tr)
    | (Rejected error, tr) =>
        (Fulfilled (setAnalyzingState false (handleAnalysisError error p1)), tr)
    | (Pending, tr) => (Pending, tr)
    end.
Proof.
  intros Hne Hlen Hon Hkey.
  unfold Async.run at 1, handleAnalyzeClick. cbv zeta.
  rewrite trimmed_truthy.
  destruct (JsString.trim (textInput_value p)) as [|c t] eqn:Ht; [congruence|].
  assert ((JsString.length (c :: t) >? MAX_INPUT_LENGTH CONFIG) = false) as ->
    by (rewrite Z.gtb_ltb; apply Z.ltb_ge; lia).
  rewrite Hon, Hkey. cbn [negb]. reflexivity.
Qed.

Lemma sk_key_configured :
  JsString.starts_with (js "sk-") (OPENAI_API_KEY CONFIG) = true ->
  key_not_configured CONFIG = false.
Proof.
  intros H. unfold key_not_configured. rewrite H.
  destruct (OPENAI_API_KEY CONFIG); [discriminate H | reflexivity].
Qed.

(** The page once the request is under way. *)
Lemma analyzing_page (p : Page) :
  let p1 := showSkeletonLoader (showPage (js "results") (setAnalyzingState true p)) in
  app p1 = {| currentPage := js "results"; isAnalyzing := true;
              lastAnalysisResults := lastAnalysisResults (app p);
              isOnline := isOnline (app p) |} /\
  ui p1 = ui p ++ [AnalyzeButtonSet true; PagesHidden;
                   PageActivated (js "results"); SkeletonShown].
Proof.
  cbv zeta. unfold showSkeletonLoader, showPage.
  replace (pageMap_has (js "results")) with true by reflexivity.
  unfold setAnalyzingState, emit, set_app; cbn [app ui textInput_value
    currentPage isAnalyzing lastAnalysisResults isOnline].
  split; [reflexivity|]. rewrite <- !app_assoc. reflexivity.
Qed.


(** X16. When the service answers in time with a non-success status, the
    body is not read and the user is shown the toast "API error. Please
    check your configuration."; the page is scheduled to return to
    "analyze" two seconds later and nothing is cached. *)
Theorem failed_status_shows_api_error (p : Page) t r :
  JsString.trim (textInput_value p) <> [] ->
  JsString.length (JsString.trim (textInput_value p)) <= MAX_INPUT_LENGTH CONFIG ->
  isOnline (app p) = true ->
  JsString.starts_with (js "sk-") (OPENAI_API_KEY CONFIG) = true ->
  upstream w (browser_call CONFIG (JsString.trim (textInput_value p))) = Resolves t r ->
  t < REQUEST_TIMEOUT CONFIG ->
  ok r = false ->
  exists p',
    Async.run (handleAnalyzeClick CONFIG p) w =
      (Fulfilled p', [browser_call CONFIG (JsString.trim (textInput_value p))]) /\
    lastAnalysisResults (app p') = lastAnalysisResults (app p) /\
    ui p' = ui p ++
      [ AnalyzeButtonSet true; PagesHidden; PageActivated (js "results");
        SkeletonShown;
        ToastShown (js "API error. Please check your configuration.") (js "error");
        Scheduled 2000 (ShowPage (js "analyze"));
        AnalyzeButtonSet false ].
Proof.
  intros Hne Hlen Hon Hkey Hup Ht Hok.
  rewrite (passing_click p Hne Hlen Hon (sk_key_configured Hkey)). cbv zeta.
  rewrite (analyzeToxicity_in_time _ t r Hup Ht), Hok.
  destruct (analyzing_page p) as [Happ Hui].
  remember (showSkeletonLoader (showPage (js "results") (setAnalyzingState true p)))
    as p1 eqn:Hp1; clear Hp1.
  eexists; split; [reflexivity|].
  unfold setAnalyzingState, handleAnalysisError, showToast, emit, set_app;
    cbn [app ui textInput_value currentPage isAnalyzing lastAnalysisResults isOnline
         message].
  rewrite Happ, Hui; cbn [lastAnalysisResults].
  split; [reflexivity|].
  replace (JsString.includes (js "OpenAI Moderation API error") (js "timeout"))
    with false by (vm_compute; reflexivity).
  replace (JsString.includes (js "OpenAI Moderation API error") (js "API"))
    with true by (vm_compute; reflexivity).
  rewrite <- !app_assoc. reflexivity.
Qed.

(** The TypeErrors of [processApiResponse] mention none of the words
    [handleAnalysisError] looks for. *)
Lemma processApiResponse_throws data e :
  processApiResponse data = Throw e ->
  JsString.includes (message e) (js "timeout") = false /\
  JsString.includes (message e) (js "API") = false /\
  JsString.includes (message e) (js "network") = false.
Proof.
  unfold processApiResponse.
  destruct (get_prop data (js "results")) as [results|e1] eqn:E1; cbn [bind].
  2:{ intros H; injection H as <-.
      destruct data; try discriminate E1; injection E1 as <-;
        vm_compute; auto. }
  destruct (get_first results) as [result|e2] eqn:E2; cbn [bind].
  2:{ intros H; injection H as <-.
      destruct results; try discriminate E2; injection E2 as <-;
        vm_compute; auto. }
  destruct (get_prop result (js "categories")) as [cs|e3] eqn:E3; cbn [bind].
  2:{ intros H; injection H as <-.
      destruct result; try discriminate E3; injection E3 as <-;
        vm_compute; auto. }
  destruct (get_prop result (js "flagged")) as [fl|e4] eqn:E4; cbn [bind].
  2:{ exfalso. destruct result; discriminate. }
  destruct (nullish cs) eqn:Hn.
  - destruct cs; try discriminate Hn;
      (intros H; vm_compute in H; injection H as <-; vm_compute; auto).
  - rewrite (for_in_fields_of cs _ _ Hn), for_in_object. cbn [bind]. discriminate.
Qed.

(** X17. When the service answers in time with a success status and a
    body that parses to something [processApiResponse] cannot read, the
    TypeError it throws is shown to the user as the generic toast
    "Analysis failed. Please try again." and nothing is cached. *)
Theorem unreadable_result_shows_generic_error (p : Page) t r data e :
  JsString.trim (textInput_value p) <> [] ->
  JsString.length (JsString.trim (textInput_value p)) <= MAX_INPUT_LENGTH CONFIG ->
  isOnline (app p) = true ->
  JsString.starts_with (js "sk-") (OPENAI_API_KEY CONFIG) = true ->
  upstream w (browser_call CONFIG (JsString.trim (textInput_value p))) = Resolves t r ->
  t < REQUEST_TIMEOUT CONFIG ->
  ok r = true ->
  read_json r = Normal data ->
  processApiResponse data = Throw e ->
  exists p',
    Async.run (handleAnalyzeClick CONFIG p) w =
      (Fulfilled p', [browser_call CONFIG (JsString.trim (textInput_value p))]) /\
    lastAnalysisResults (app p') = lastAnalysisResults (app p) /\
    ui p' = ui p ++
      [ AnalyzeButtonSet true; PagesHidden; PageActivated (js "results");
        SkeletonShown;
        ToastShown (js "Analysis failed. Please try again.") (js "error");
        Scheduled 2000 (ShowPage (js "analyze"));
        AnalyzeButtonSet false ].
Proof.
  intros Hne Hlen Hon Hkey Hup Ht Hok Hj He.
  rewrite (passing_click p Hne Hlen Hon (sk_key_configured Hkey)). cbv zeta.
  rewrite (analyzeToxicity_in_time _ t r Hup Ht), Hok, Hj, He.
  destruct (processApiResponse_throws data e He) as (H1 & H2 & H3).
  destruct (analyzing_page p) as [Happ Hui].
  remember (showSkeletonLoader (showPage (js "results") (setAnalyzingState true p)))
    as p1 eqn:Hp1; clear Hp1.
  eexists; split; [reflexivity|].
  unfold setAnalyzingState, handleAnalysisError, showToast, emit, set_app;
    cbn [app ui textInput_value currentPage isAnalyzing lastAnalysisResults isOnline].
  rewrite Happ, Hui, H1, H2, H3; cbn [lastAnalysisResults].
  split; [reflexivity|].
  rewrite <- !app_assoc. reflexivity.
Qed.

(** X18. When the request has not settled after
    [CONFIG.REQUEST_TIMEOUT] milliseconds it is aborted, and the toast
    is chosen from the platform's abort message alone: unless that
    message contains "timeout", "API" or "network", the user is shown the
    generic "Analysis failed. Please try again." and not "Request timed
    out". *)
Theorem aborted_request_shows_generic_error (p : Page) :
  JsString.trim (textInput_value p) <> [] ->
  JsString.length (JsString.trim (textInput_value p)) <= MAX_INPUT_LENGTH CONFIG ->
  isOnline (app p) = true ->
  JsString.starts_with (js "sk-") (OPENAI_API_KEY CONFIG) = true ->
  not_settled_by w (browser_call CONFIG (JsString.trim (textInput_value p)))
    (REQUEST_TIMEOUT CONFIG) ->
  JsString.includes (abort_message w) (js "timeout") = false ->
  JsString.includes (abort_message w) (js "API") = false ->
  JsString.includes (abort_message w) (js "network") = false ->
  exists p',
    Async.run (handleAnalyzeClick CONFIG p) w =
      (Fulfilled p', [browser_call CONFIG (JsString.trim (textInput_value p))]) /\
    lastAnalysisResults (app p') = lastAnalysisResults (app p) /\
    ui p' = ui p ++
      [ AnalyzeButtonSet true; PagesHidden; PageActivated (js "results");
        SkeletonShown;
        ToastShown (js "Analysis failed. Please try again.") (js "error");
        Scheduled 2000 (ShowPage (js "analyze"));
        AnalyzeButtonSet false ].
Proof.
  intros Hne Hlen Hon Hkey Hlate H1 H2 H3.
  rewrite (passing_click p Hne Hlen Hon (sk_key_configured Hkey)). cbv zeta.
  rewrite (analyzeToxicity_aborted w CONFIG _ Hlate).
  destruct (analyzing_page p) as [Happ Hui].
  remember (showSkeletonLoader (showPage (js "results") (setAnalyzingState true p)))
    as p1 eqn:Hp1; clear Hp1.
  eexists; split; [reflexivity|].
  unfold setAnalyzingState, handleAnalysisError, showToast, emit, set_app;
    cbn [app ui textInput_value currentPage isAnalyzing lastAnalysisResults isOnline
         message].
  rewrite Happ, Hui, H1, H2, H3; cbn [lastAnalysisResults].
  split; [reflexivity|].
  rewrite <- !app_assoc. reflexivity.
Qed.

(** X19. Once [handleOffline] has run, a click sends nothing, whatever
    the text and the configuration; after [handleOnline] the application
    state is what it was before, online. *)
Theorem offline_click_sends_nothing (p : Page) :
  snd (Async.run (handleAnalyzeClick CONFIG (handleOffline p)) w) = [] /\
  (exists p', fst (Async.run (handleAnalyzeClick CONFIG (handleOffline p)) w)
              = Fulfilled p' /\ app p' = app (handleOffline p)) /\
  app (handleOnline (handleOffline p)) =
    {| currentPage := currentPage (app p); isAnalyzing := isAnalyzing (app p);
       lastAnalysisResults := lastAnalysisResults (app p); isOnline := true |}.
Proof.
  assert (Hoff : isOnline (app (handleOffline p)) = false) by reflexivity.
  assert (Htext : textInput_value (handleOffline p) = textInput_value p) by reflexivity.
  unfold Async.run, handleAnalyzeClick. cbv zeta.
  rewrite trimmed_truthy, Htext, Hoff.
  split; [|split; [|reflexivity]].
  - destruct (JsString.trim (textInput_value p)); [reflexivity|].
    destruct (JsString.length _ >? MAX_INPUT_LENGTH CONFIG); reflexivity.
  - destruct (JsString.trim (textInput_value p)); [eexists; split; reflexivity|].
    destruct (JsString.length _ >? MAX_INPUT_LENGTH CONFIG);
      eexists; split; reflexivity.
Qed.

End AnalyzeClick.

Lemma hello_trimmed : JsString.trim (js " hello ") <> [].
Proof. vm_compute; discriminate. Defined.

Lemma hello_short :
  JsString.length (JsString.trim (js " hello ")) <= 10000.
Proof. vm_compute; discriminate. Defined.

Lemma blocked_click_sends_nothing_witness :
  Async.run (Frontend.handleAnalyzeClick example_config (idle_page (js "   ")))
    (stub_world NeverSettles) =
    (Fulfilled (Frontend.showToast (js "Please enter text to analyze") (js "warning")
                  (idle_page (js "   "))), []) /\
  Async.run (Frontend.handleAnalyzeClick example_config
               (Frontend.handleOffline (idle_page (js " hello "))))
    (stub_world NeverSettles) =
    (Fulfilled (Frontend.showToast
                  (js "No internet connection. Please check your network.")
                  (js "error") (Frontend.handleOffline (idle_page (js " hello ")))), []).
Proof.
  split.
  - apply (proj1 (blocked_click_sends_nothing example_config (stub_world NeverSettles)
                    (idle_page (js "   ")))).
    reflexivity.
  - apply (proj1 (proj2 (proj2 (blocked_click_sends_nothing example_config
                    (stub_world NeverSettles)
                    (Frontend.handleOffline (idle_page (js " hello "))))))).
    + exact hello_trimmed.
    + exact hello_short.
    + reflexivity.
Defined.


Lemma failed_status_shows_api_error_witness :
  exists p',
    Async.run (Frontend.handleAnalyzeClick example_config (idle_page (js " hello ")))
      (answers 401 (Normal (js "{}")) (Normal (JObj []))) =
      (Fulfilled p', [browser_call example_config (js "hello")]) /\
    In (Frontend.ToastShown (js "API error. Please check your configuration.")
          (js "error")) (Frontend.ui p').
Proof.
  destruct (failed_status_shows_api_error example_config
              (answers 401 (Normal (js "{}")) (Normal (JObj [])))
              (idle_page (js " hello ")) 120
              {| status := 401; read_text := Normal (js "{}");
                 read_json := Normal (JObj []) |}
              hello_trimmed hello_short eq_refl eq_refl eq_refl eq_refl eq_refl)
    as (p' & Hrun & _ & Hui).
  exists p'; split; [exact Hrun|].
  rewrite Hui. cbn [Frontend.ui idle_page app In]. tauto.
Defined.

Lemma unreadable_result_shows_generic_error_witness :
  exists p',
    Async.run (Frontend.handleAnalyzeClick example_config (idle_page (js " hello ")))
      (answers 200 (Normal (js "{}")) (Normal (JObj []))) =
      (Fulfilled p', [browser_call example_config (js "hello")]) /\
    In (Frontend.ToastShown (js "Analysis failed. Please try again.") (js "error"))
       (Frontend.ui p').
Proof.
  destruct (unreadable_result_shows_generic_error example_config
              (answers 200 (Normal (js "{}")) (Normal (JObj [])))
              (idle_page (js " hello ")) 120
              {| status := 200; read_text := Normal (js "{}");
                 read_json := Normal (JObj []) |}
              (JObj []) (cannot_read "undefined" (js "0"))
              hello_trimmed hello_short eq_refl eq_refl eq_refl eq_refl eq_refl
              eq_refl eq_refl)
    as (p' & Hrun & _ & Hui).
  exists p'; split; [exact Hrun|].
  rewrite Hui. cbn [Frontend.ui idle_page app In]. tauto.
Defined.

Lemma aborted_request_shows_generic_error_witness :
  exists p',
    Async.run (Frontend.handleAnalyzeClick example_config (idle_page (js " hello ")))
      slow_world =
      (Fulfilled p', [browser_call example_config (js "hello")]) /\
    In (Frontend.ToastShown (js "Analysis failed. Please try again.") (js "error"))
       (Frontend.ui p').
Proof.
  destruct (aborted_request_shows_generic_error example_config slow_world
              (idle_page (js " hello ")) hello_trimmed hello_short eq_refl eq_refl)
    as (p' & Hrun & _ & Hui).
  - vm_compute; discriminate.
  - vm_compute; reflexivity.
  - vm_compute; reflexivity.
  - vm_compute; reflexivity.
  - exists p'; split; [exact Hrun|].
    rewrite Hui. cbn [Frontend.ui idle_page app In]. tauto.
Defined.

(** X20. The start-up check and the click check agree: [initializeApp]
    shows the toast "OpenAI API key not configured" exactly when a click
    on an online page with an acceptable text would be stopped without
    sending anything; otherwise it only shows the home page. *)
Theorem startup_warning_matches_click_check
  (CONFIG : Frontend.Config) (w : World) (start p : Frontend.Page) :
  JsString.trim (Frontend.textInput_value p) <> [] ->
  JsString.length (JsString.trim (Frontend.textInput_value p))
    <= Frontend.MAX_INPUT_LENGTH CONFIG ->
  Frontend.isOnline (Frontend.app p) = true ->
  (Frontend.ui (Frontend.initializeApp CONFIG start) =
     Frontend.ui start ++
       [ Frontend.PagesHidden; Frontend.PageActivated (js "home");
         Frontend.ToastShown (js "OpenAI API key not configured") (js "error") ]
   /\ snd (Async.run (Frontend.handleAnalyzeClick CONFIG p) w) = []) \/
  (Frontend.ui (Frontend.initializeApp CONFIG start) =
     Frontend.ui start ++ [ Frontend.PagesHidden; Frontend.PageActivated (js "home") ]
   /\ snd (Async.run (Frontend.handleAnalyzeClick CONFIG p) w) =
        [browser_call CONFIG (JsString.trim (Frontend.textInput_value p))]).
Proof.
  intros Hne Hlen Hon.
  assert (Hhome : Frontend.ui (Frontend.showPage (js "home") start) =
                  Frontend.ui start ++
                    [Frontend.PagesHidden; Frontend.PageActivated (js "home")]).
  { unfold Frontend.showPage.
    replace (Frontend.pageMap_has (js "home")) with true by reflexivity.
    unfold Frontend.emit, Frontend.set_app; cbn [Frontend.ui].
    rewrite <- app_assoc. reflexivity. }
  unfold Frontend.initializeApp. cbv zeta.
  destruct (Frontend.key_not_configured CONFIG) eqn:Hkey.
  - left. split.
    + unfold Frontend.showToast, Frontend.emit; cbn [Frontend.ui].
      rewrite Hhome, <- app_assoc. reflexivity.
    + unfold Async.run, Frontend.handleAnalyzeClick. cbv zeta.
      rewrite trimmed_truthy.
      destruct (JsString.trim (Frontend.textInput_value p)) as [|c t]; [congruence|].
      assert ((JsString.length (c :: t) >? Frontend.MAX_INPUT_LENGTH CONFIG) = false)
        as -> by (rewrite Z.gtb_ltb; apply Z.ltb_ge; lia).
      rewrite Hon, Hkey. reflexivity.
  - right. split; [exact Hhome|].
    rewrite (passing_click CONFIG w p Hne Hlen Hon Hkey). cbv zeta.
    destruct (analyzeToxicity_settles CONFIG w
                (JsString.trim (Frontend.textInput_value p))) as (o & -> & Ho).
    destruct o; [reflexivity | reflexivity | congruence].
Qed.

Lemma startup_warning_matches_click_check_witness :
  Frontend.ui (Frontend.initializeApp example_config (idle_page [])) =
    [ Frontend.PagesHidden; Frontend.PageActivated (js "home") ] /\
  snd (Async.run (Frontend.handleAnalyzeClick example_config (idle_page (js " hello ")))
         (stub_world NeverSettles)) = [browser_call example_config (js "hello")].
Proof.
  destruct (startup_warning_matches_click_check example_config (stub_world NeverSettles)
              (idle_page []) (idle_page (js " hello "))
              hello_trimmed hello_short eq_refl)
    as [[Hui _]|[Hui Hcall]].
  - exfalso. vm_compute in Hui. discriminate Hui.
  - split; [exact Hui | exact Hcall].
Defined.
